(** * Day-of-year baseline / deviation analysis of [calculate.py]

    A shallow embedding of the data flow of [calculate.py], from the loaded
    consumption frames ([elec_df], [gas_df]) and the fetched temperature frame
    ([temp_df]) down to [high_usage_warm_days].

    Conventions of the embedding:
    - a pandas DataFrame in long form is the list of its rows, in row order;
    - a float64 cell is [option Qc]: [None] is NaN (pandas' marker of an
      absent value), [Some q] is the number [q].  Arithmetic is exact
      rational arithmetic; IEEE rounding is not modelled;
    - a pivoted (wide) DataFrame is a list of labelled rows, each a list of
      labelled cells, in index order and column order;
    - an uncaught Python exception is a value of [Error];
    - where the rounding of float64 decides a property (the sum of several
      same-day readings depends on their order), the accumulation is also
      given on binary64 itself: [float64_sum], [float64_kahan_sum] and
      [float64_group_sum].  Properties on the order of the rows are stated
      for every aggregation of a group, not for the exact sum. *)

From Stdlib Require Import Floats.PrimFloat.
From Stdlib Require Import QArith Qcanon.
From stdpp Require Import base tactics option list numbers sorting strings.

Set Warnings "-clear-no-such-hyp".
Set Warnings "-inexact-float".

Local Open Scope Z_scope.

(** ** Calendar dates ([pandas.Timestamp] at day resolution) *)

Module Calendar.

Record date := mkDate { dt_year : Z; dt_month : Z; dt_day : Z }.

#[global] Instance date_eq_dec : EqDecision date.
Proof. solve_decision. Defined.

Definition is_leap_year (y : Z) : bool :=
  (y mod 4 =? 0) && (negb (y mod 100 =? 0) || (y mod 400 =? 0)).

Definition days_in_month (y m : Z) : Z :=
  if m =? 2 then (if is_leap_year y then 29 else 28)
  else if (m =? 4) || (m =? 6) || (m =? 9) || (m =? 11) then 30
  else 31.

(** Number of days of year [y] before the first day of month [m]. *)
Definition days_before_month (y m : Z) : Z :=
  foldr Z.add 0 (days_in_month y <$> seqZ 1 (m - 1)).

(** The same count in a common year, as a table. *)
Definition cumulative_days (m : Z) : Z :=
  match m with
  | 1 => 0 | 2 => 31 | 3 => 59 | 4 => 90 | 5 => 120 | 6 => 151
  | 7 => 181 | 8 => 212 | 9 => 243 | 10 => 273 | 11 => 304 | _ => 334
  end.

(** [Series.dt.dayofyear]: 1-based ordinal day, 1 January being 1. *)
Definition dt_dayofyear (d : date) : Z :=
  days_before_month (dt_year d) (dt_month d) + dt_day d.

(** The dates [pd.to_datetime(..., errors='raise')] can produce. *)
Definition valid_date (d : date) : Prop :=
  1 <= dt_month d <= 12 /\ 1 <= dt_day d <= days_in_month (dt_year d) (dt_month d).

#[global] Instance valid_date_dec (d : date) : Decision (valid_date d).
Proof. unfold valid_date. apply _. Defined.

(** Chronological order, the order of [Timestamp] comparison. *)
Definition date_ltb (a b : date) : bool :=
  (dt_year a <? dt_year b)
  || ((dt_year a =? dt_year b)
      && ((dt_month a <? dt_month b)
          || ((dt_month a =? dt_month b) && (dt_day a <? dt_day b)))).

End Calendar.
Export Calendar.

(** ** Frames *)

(** A row of [elec_df] / [gas_df] after loading: columns [Date], [Usage]. *)
Record UsageRow := mkUsage { u_Date : date; u_Usage : option Qc }.

(** A row of [temp_df]. *)
Record TempRow := mkTemp {
  t_Date : date;
  t_Min_Temp_C : option Qc;
  t_Max_Temp_C : option Qc;
  t_Avg_Temp_C : option Qc }.

(** A row of [merged_elec] / [merged_gas]. *)
Record MergedRow := mkMerged {
  Date : date;
  Usage : option Qc;
  Min_Temp_C : option Qc;
  Max_Temp_C : option Qc;
  Avg_Temp_C : option Qc }.

#[global] Instance UsageRow_eq_dec : EqDecision UsageRow.
Proof. solve_decision. Defined.
#[global] Instance TempRow_eq_dec : EqDecision TempRow.
Proof. solve_decision. Defined.
#[global] Instance MergedRow_eq_dec : EqDecision MergedRow.
Proof. solve_decision. Defined.

(** The columns [Year] and [DayOfYear] added in step 6 are functions of
    [Date]. *)
Definition Year (r : MergedRow) : Z := dt_year (Date r).
Definition DayOfYear (r : MergedRow) : Z := dt_dayofyear (Date r).

(** ** SeriesAligner: [pd.merge(left, temp_df, on='Date', how='left')] *)

Definition joined (l : UsageRow) (t : TempRow) : MergedRow :=
  mkMerged (u_Date l) (u_Usage l) (t_Min_Temp_C t) (t_Max_Temp_C t) (t_Avg_Temp_C t).

Definition unmatched (l : UsageRow) : MergedRow :=
  mkMerged (u_Date l) (u_Usage l) None None None.

Definition matches (right : list TempRow) (l : UsageRow) : list TempRow :=
  filter (λ t, t_Date t = u_Date l) right.

(** Left order is kept; a left row is repeated once per matching right row
    and kept once, with NaN temperature columns, when nothing matches. *)
Definition merge_left (left : list UsageRow) (right : list TempRow) : list MergedRow :=
  left ≫= λ l,
    match matches right l with
    | [] => [unmatched l]
    | ts => joined l <$> ts
    end.

(** ** Exceptions and the error monad of the script *)

Inductive Error :=
  | ValueError (msg : string)
  | AssertionError (msg : string).

Inductive result (A : Type) :=
  | Ok (a : A)
  | Raise (e : Error).
Arguments Ok {A} a.
Arguments Raise {A} e.

#[global] Instance result_ret : MRet result := λ A a, Ok a.
#[global] Instance result_bind : MBind result := λ A B f r,
  match r with Ok a => f a | Raise e => Raise e end.

(** [assert cond, msg] *)
Definition assert (cond : bool) (msg : string) : result unit :=
  if cond then Ok () else Raise (AssertionError msg).

(** ** Step 3 (before the fetch): the requested date range *)

(** A [Timestamp] that may be [NaT] ([None]). *)
Definition timestamp := option date.

(** [Series.min()] / [Series.max()] of a [Date] column; [NaT] when empty. *)
Definition series_min (l : list date) : timestamp :=
  foldr (λ d acc, match acc with
                  | None => Some d
                  | Some m => Some (if date_ltb d m then d else m)
                  end) None l.
Definition series_max (l : list date) : timestamp :=
  foldr (λ d acc, match acc with
                  | None => Some d
                  | Some m => Some (if date_ltb m d then d else m)
                  end) None l.

(** [a < b] on timestamps: every comparison with [NaT] is [False]. *)
Definition ts_ltb (a b : timestamp) : bool :=
  match a, b with
  | Some x, Some y => date_ltb x y
  | _, _ => false
  end.

(** Python's two-argument [min(a, b)] and [max(a, b)]: the first argument
    is kept unless the second compares strictly better. *)
Definition py_min (a b : timestamp) : timestamp := if ts_ltb b a then b else a.
Definition py_max (a b : timestamp) : timestamp := if ts_ltb a b then b else a.

(** [Timestamp.strftime]; [NaTType] does not support it. *)
Definition strftime (t : timestamp) : result date :=
  match t with
  | Some d => Ok d
  | None => Raise (ValueError "NaTType does not support strftime"%string)
  end.

Definition min_coverage : timestamp := Some (mkDate 1979 1 1).

Definition api_date_range (today : date) (elec_df gas_df : list UsageRow)
  : result (date * date) :=
  let earliest_elec := series_min (u_Date <$> elec_df) in
  let latest_elec := series_max (u_Date <$> elec_df) in
  let earl_gas := series_min (u_Date <$> gas_df) in
  let late_gas := series_max (u_Date <$> gas_df) in
  let start_date := py_min earliest_elec earl_gas in
  let end_date := py_max latest_elec late_gas in
  let end_date := if ts_ltb (Some today) end_date then Some today else end_date in
  let start_date := if ts_ltb start_date min_coverage then min_coverage else start_date in
  start_date_str ← strftime start_date;
  end_date_str ← strftime end_date;
  Ok (start_date_str, end_date_str).

(** ** NaN-skipping reductions *)

Local Open Scope Qc_scope.

Definition dropna (l : list (option Qc)) : list Qc := omap id l.

(** The exact sum of the values; on binary64 the sum of two values or more
    is rounded, see [float64_sum] below. *)
Definition Qsum (l : list Qc) : Qc := foldr Qcplus 0 l.

(** [sum()] of a group: NaN cells are skipped, an all-NaN group sums to 0. *)
Definition nansum (l : list (option Qc)) : option Qc := Some (Qsum (dropna l)).

Definition mean_of (vs : list Qc) : option Qc :=
  match vs with
  | [] => None
  | _ => Some (Qsum vs / Qc_of_Z (Z.of_nat (length vs)))
  end.

(** [mean()] of a group or of a pivot row: NaN cells are skipped, the mean
    of no value at all is NaN. *)
Definition nanmean (l : list (option Qc)) : option Qc := mean_of (dropna l).

(** Element-wise [a - b]; NaN when either operand is NaN. *)
Definition sub (a b : option Qc) : option Qc :=
  match a, b with
  | Some x, Some y => Some (x - y)
  | _, _ => None
  end.

(** ** The sum of a group on binary64

    [groupby(...).sum()] adds the float64 readings of a group one after the
    other, in row order.  [float64_sum] is the plain accumulation;
    [float64_kahan_sum] carries the compensation term of pandas' group sum.
    Neither is insensitive to the order of the readings. *)

Definition float64_sum (readings : list float) : float :=
  foldl PrimFloat.add PrimFloat.zero readings.

Definition kahan_step (state : float * float) (val : float) : float * float :=
  let y := PrimFloat.sub val state.2 in
  let t := PrimFloat.add state.1 y in
  (t, PrimFloat.sub (PrimFloat.sub t state.1) y).

Definition float64_kahan_sum (readings : list float) : float :=
  (foldl kahan_step (PrimFloat.zero, PrimFloat.zero) readings).1.

(** The cell of [groupby(['Year','DayOfYear'])['Usage'].sum()] at the key
    [(y, d)], on binary64 readings: the readings of that year and day,
    added in row order. *)
Definition float64_group_sum (readings : list (date * float)) (y d : Z) : float :=
  float64_kahan_sum
    (snd <$> filter (λ r : date * float, dt_year r.1 = y ∧ dt_dayofyear r.1 = d)
               readings).

(** ** Step 4: is [Usage.corr(Avg_Temp_C)] NaN?

    Only the NaN-ness of the Pearson coefficient reaches the control flow
    (the asserts of the test block).  [nancorr] keeps the rows where both
    columns are not NaN and returns NaN when fewer than [min_periods = 1]
    remain; otherwise the coefficient is NaN exactly when one of the two
    variances is zero.  With no pair or a single pair this is also what
    binary64 gives.  With two pairs or more, [constant] is the criterion of
    exact arithmetic: on binary64 the running mean of a constant column may
    be inexact (0.1, 0.1, 0.1), the computed variance is then not zero and
    the coefficient is finite.  The properties below rely on [corr_is_nan]
    for at most one pair and on columns that are not constant only. *)

Definition valid_pairs (rows : list MergedRow) : list (Qc * Qc) :=
  omap (λ r, match Usage r, Avg_Temp_C r with
             | Some u, Some t => Some (u, t)
             | _, _ => None
             end) rows.

Definition constant (l : list Qc) : bool :=
  match l with
  | [] => true
  | x :: l' => forallb (λ y, bool_decide (y = x)) l'
  end.

Definition corr_is_nan (rows : list MergedRow) : bool :=
  let ps := valid_pairs rows in
  bool_decide (ps = []) || constant ps.*1 || constant ps.*2.

(** ** DayOfYearAggregator: [groupby(['Year','DayOfYear'])[col].agg()] *)

(** A row of [daily_elec], [daily_gas] or [daily_temp]. *)
Record DailyRow := mkDaily { d_Year : Z; d_DayOfYear : Z; d_value : option Qc }.

#[global] Instance DailyRow_eq_dec : EqDecision DailyRow.
Proof. solve_decision. Defined.

(** Lexicographic order of the group keys [(Year, DayOfYear)]. *)
Definition key_le (a b : Z * Z) : Prop :=
  (a.1 < b.1)%Z ∨ (a.1 = b.1 ∧ (a.2 ≤ b.2)%Z).

#[global] Instance key_le_dec : RelDecision key_le.
Proof. intros a b. unfold key_le. apply _. Defined.

(** The distinct labels of a column, in ascending order. *)
Definition sort_distinct {A} `{EqDecision A} (R : relation A) `{!RelDecision R}
    (l : list A) : list A :=
  merge_sort R (remove_dups l).

Definition sorted_unique_keys (l : list (Z * Z)) : list (Z * Z) :=
  sort_distinct key_le l.

Definition sorted_unique (l : list Z) : list Z :=
  sort_distinct Z.le l.

Definition group_key (r : MergedRow) : Z * Z := (Year r, DayOfYear r).

(** The cells of column [col] in the rows of group [k], in row order. *)
Definition group (col : MergedRow → option Qc) (k : Z * Z) (rows : list MergedRow)
  : list (option Qc) :=
  col <$> filter (λ r, group_key r = k) rows.

(** One output row per distinct key, keys sorted (groupby's [sort=True]),
    then [reset_index()]. *)
Definition groupby (col : MergedRow → option Qc)
    (agg : list (option Qc) → option Qc) (rows : list MergedRow) : list DailyRow :=
  (λ k, mkDaily k.1 k.2 (agg (group col k rows)))
    <$> sorted_unique_keys (group_key <$> rows).

(** ** BaselineEngine: pivot, row mean, deviation *)

(** A Series indexed by integer labels, and a wide frame: index label
    (DayOfYear) to the cells of that row, each under its column label
    (Year). *)
Abbreviation Series := (list (Z * option Qc)).
Abbreviation Frame := (list (Z * list (Z * option Qc))).

Fixpoint assoc {V} (k : Z) (l : list (Z * V)) : option V :=
  match l with
  | [] => None
  | (k', v) :: l' => if decide (k' = k) then Some v else assoc k l'
  end.

(** [s.get(d)], with NaN and a missing label both read as absent. *)
Definition series_at (s : Series) (d : Z) : option Qc :=
  default None (assoc d s).

(** The cell of frame [f] at index label [d] and column label [y]; absent
    when a label is missing or the cell is NaN. *)
Definition loc (f : Frame) (d y : Z) : option Qc :=
  match assoc d f with
  | Some row => series_at row y
  | None => None
  end.

Definition pivot_key (r : DailyRow) : Z * Z := (d_DayOfYear r, d_Year r).

(** The value of the long-form row with the given labels; NaN if none. *)
Definition entry (t : list DailyRow) (d y : Z) : option Qc :=
  match filter (λ r, pivot_key r = (d, y)) t with
  | r :: _ => d_value r
  | [] => None
  end.

(** The reshaped table of [t.pivot(index='DayOfYear', columns='Year',
    values=...)]: sorted distinct labels on both axes. *)
Definition pivot_table (t : list DailyRow) : Frame :=
  let index := sorted_unique (d_DayOfYear <$> t) in
  let columns := sorted_unique (d_Year <$> t) in
  (λ d, (d, (λ y, (y, entry t d y)) <$> columns)) <$> index.

(** [pivot] raises on duplicate [(index, column)] pairs. *)
Definition pivot (t : list DailyRow) : result Frame :=
  if decide (NoDup (pivot_key <$> t)) then Ok (pivot_table t)
  else Raise (ValueError "Index contains duplicate entries, cannot reshape"%string).

(** [f.mean(axis=1)] *)
Definition row_mean (f : Frame) : Series :=
  (λ r : Z * Series, (r.1, nanmean r.2.*2)) <$> f.

(** [f.apply(lambda col: col - m)]: each column minus the Series [m],
    aligned on the index labels. *)
Definition deviation (f : Frame) (m : Series) : Frame :=
  (λ r : Z * Series,
     (r.1, (λ c : Z * option Qc, (c.1, sub c.2 (series_at m r.1))) <$> r.2)) <$> f.

(** ** AnomalyDetector: stack, inner merge, threshold filter *)

(** A row of [dev_gas_stacked] / [temp_dev_stacked]. *)
Record StackedRow := mkStacked { s_DayOfYear : Z; s_Year : Z; s_value : Qc }.

(** A row of [merged_dev_daily]. *)
Record DevRow := mkDev { DevDayOfYear : Z; DevYear : Z; Gas_Dev : Qc; Temp_Dev : Qc }.

#[global] Instance StackedRow_eq_dec : EqDecision StackedRow.
Proof. solve_decision. Defined.
#[global] Instance DevRow_eq_dec : EqDecision DevRow.
Proof. solve_decision. Defined.

(** [f.stack().reset_index()]: row by row, column by column, NaN cells
    dropped. *)
Definition stack (f : Frame) : list StackedRow :=
  f ≫= λ r : Z * Series,
    omap (λ c : Z * option Qc, mkStacked r.1 c.1 <$> c.2) r.2.

(** [pd.merge(left, right, on=['DayOfYear','Year'], how='inner')]: the
    order of the left keys is kept. *)
Definition merge_inner (left right : list StackedRow) : list DevRow :=
  left ≫= λ l,
    (λ r, mkDev (s_DayOfYear l) (s_Year l) (s_value l) (s_value r))
      <$> filter (λ r, s_DayOfYear r = s_DayOfYear l ∧ s_Year r = s_Year l) right.

Definition HIGH_USAGE_THRESHOLD : Qc := 2.
Definition LOW_TEMP_THRESHOLD : Qc := -1.

(** Line 304, with the two constants of lines 301-302 as parameters. *)
Definition select_high_usage_warm_days (high_usage_threshold low_temp_threshold : Qc)
    (merged_dev_daily : list DevRow) : list DevRow :=
  filter (λ r, high_usage_threshold < Gas_Dev r ∧ 0 < Temp_Dev r) merged_dev_daily.

(** Steps 8.4 to 9 on two wide deviation frames. *)
Definition detect (high low : Qc) (dev_gas_daily temp_dev_daily : Frame) : list DevRow :=
  select_high_usage_warm_days high low
    (merge_inner (stack dev_gas_daily) (stack temp_dev_daily)).

(** ** The script, from the loaded frames to [high_usage_warm_days] *)

Record Report := mkReport {
  r_merged_elec : list MergedRow;
  r_merged_gas : list MergedRow;
  r_daily_elec : list DailyRow;
  r_daily_gas : list DailyRow;
  r_daily_elec_pivot : Frame;
  r_daily_gas_pivot : Frame;
  r_mean_elec_per_day : Series;
  r_mean_gas_per_day : Series;
  r_dev_elec_daily : Frame;
  r_dev_gas_daily : Frame;
  r_daily_temp : list DailyRow;
  r_daily_temp_pivot : Frame;
  r_std_temp_day : Series;
  r_temp_dev_daily : Frame;
  r_merged_dev_daily : list DevRow;
  r_high_usage_warm_days : list DevRow }.

#[global] Instance Error_eq_dec : EqDecision Error.
Proof. solve_decision. Defined.
#[global] Instance result_eq_dec {A} `{EqDecision A} : EqDecision (result A).
Proof. solve_decision. Defined.
#[global] Instance Report_eq_dec : EqDecision Report.
Proof. solve_decision. Defined.

(** [today] is [datetime.date.today()]; [temp_df] is what the fetch of
    lines 111-139 left in [temp_df] (no row at all after a failed request or
    mismatching arrays).  The two thresholds are the constants of lines
    301-302. *)
Definition analysis (high_usage_threshold low_temp_threshold : Qc) (today : date)
    (elec_df gas_df : list UsageRow) (temp_df : list TempRow) : result Report :=
  _ ← api_date_range today elec_df gas_df;
  let merged_elec := merge_left elec_df temp_df in
  let merged_gas := merge_left gas_df temp_df in
  let correlation_elec_is_nan := corr_is_nan merged_elec in
  let correlation_gas_is_nan := corr_is_nan merged_gas in
  let daily_elec := groupby Usage nansum merged_elec in
  let daily_gas := groupby Usage nansum merged_gas in
  _ ← assert (negb (bool_decide (elec_df = [])))
        "Electricity DataFrame is empty. Check file contents.";
  _ ← assert (negb (bool_decide (gas_df = [])))
        "Gas DataFrame is empty. Check file contents.";
  _ ← assert (negb correlation_elec_is_nan) "Electricity correlation is NaN";
  _ ← assert (negb correlation_gas_is_nan) "Gas correlation is NaN";
  daily_elec_pivot ← pivot daily_elec;
  daily_gas_pivot ← pivot daily_gas;
  let mean_elec_per_day := row_mean daily_elec_pivot in
  let mean_gas_per_day := row_mean daily_gas_pivot in
  let dev_elec_daily := deviation daily_elec_pivot mean_elec_per_day in
  let dev_gas_daily := deviation daily_gas_pivot mean_gas_per_day in
  let daily_temp := groupby Avg_Temp_C nanmean merged_elec in
  daily_temp_pivot ← pivot daily_temp;
  let std_temp_day := row_mean daily_temp_pivot in
  let temp_dev_daily := deviation daily_temp_pivot std_temp_day in
  let merged_dev_daily := merge_inner (stack dev_gas_daily) (stack temp_dev_daily) in
  let high_usage_warm_days :=
    select_high_usage_warm_days high_usage_threshold low_temp_threshold
      merged_dev_daily in
  Ok (mkReport merged_elec merged_gas daily_elec daily_gas
        daily_elec_pivot daily_gas_pivot mean_elec_per_day mean_gas_per_day
        dev_elec_daily dev_gas_daily daily_temp daily_temp_pivot
        std_temp_day temp_dev_daily merged_dev_daily high_usage_warm_days).

Definition main : date → list UsageRow → list UsageRow → list TempRow → result Report :=
  analysis HIGH_USAGE_THRESHOLD LOW_TEMP_THRESHOLD.

(** ** Step 3: the temperature frame built from the API answer (lines 111-139) *)

(** The object under the key [daily] of the JSON answer; each of the four
    arrays may be missing. *)
Record DailyJson := mkDailyJson {
  j_time : option (list date);
  j_temperature_2m_min : option (list (option Qc));
  j_temperature_2m_max : option (list (option Qc));
  j_temperature_2m_mean : option (list (option Qc)) }.

(** What [requests.get] and [raise_for_status] leave: an exception of the
    [RequestException] family, or a JSON object whose key [daily] may be
    missing. *)
Inductive Response :=
  | RequestException
  | Json (daily : option DailyJson).

(** [d.get(key, [])] *)
Definition dict_get {A} (entry : option (list A)) : list A := default [] entry.

(** [pd.DataFrame({...})] from four columns of equal length. *)
Definition frame_of_columns (dates : list date) (mins maxs means : list (option Qc))
  : list TempRow :=
  zip_with (λ (a : date * option Qc) (b : option Qc * option Qc),
              mkTemp a.1 a.2 b.1 b.2)
    (zip dates mins) (zip maxs means).

Definition fetch_temp_df (response : Response) : list TempRow :=
  match response with
  | RequestException => []
  | Json daily =>
      let daily_data := default (mkDailyJson None None None None) daily in
      let dates_in_api := dict_get (j_time daily_data) in
      let temps_min_api := dict_get (j_temperature_2m_min daily_data) in
      let temps_max_api := dict_get (j_temperature_2m_max daily_data) in
      let temps_mean_api := dict_get (j_temperature_2m_mean daily_data) in
      if bool_decide (length dates_in_api = length temps_min_api)
         && bool_decide (length temps_min_api = length temps_max_api)
         && bool_decide (length temps_max_api = length temps_mean_api)
      then frame_of_columns dates_in_api temps_min_api temps_max_api temps_mean_api
      else []
  end.

(** The script from the answer of the API on. *)
Definition script (today : date) (elec_df gas_df : list UsageRow)
    (response : Response) : result Report :=
  main today elec_df gas_df (fetch_temp_df response).

(** Everything a run computes after the two merges: the aggregated tables,
    the matrices, the baselines, the deviations and the flagged rows. *)
Definition tables (rep : Report) :=
  (r_daily_elec rep, r_daily_gas rep, r_daily_temp rep,
   r_daily_elec_pivot rep, r_daily_gas_pivot rep, r_daily_temp_pivot rep,
   r_mean_elec_per_day rep, r_mean_gas_per_day rep, r_std_temp_day rep,
   r_dev_elec_daily rep, r_dev_gas_daily rep, r_temp_dev_daily rep,
   r_merged_dev_daily rep, r_high_usage_warm_days rep).

(** [a <= b] on dates, as the negation of [b < a]. *)
Definition date_leb (a b : date) : bool := negb (date_ltb b a).

(** ** Vocabulary of the specification

    The specification speaks of sparse matrices [(year, day_of_year) ↦
    value] and of populated cells; these definitions restate its sentences
    over the frames of the script. *)

(** The column labels (years) of a wide frame. *)
Definition frame_columns (f : Frame) : list Z :=
  match f with
  | [] => []
  | r :: _ => r.2.*1
  end.

(** The years whose cell on day [d] is populated. *)
Definition populated_years (f : Frame) (d : Z) : list Z :=
  filter (λ y, is_Some (loc f d y)) (frame_columns f).

(** "Baseline for day_of_year d = arithmetic mean of matrix[y, d] over every
    year y for which that cell is populated"; no value when there is no
    such year. *)
Definition baseline_spec (f : Frame) (d : Z) : option Qc :=
  mean_of ((λ y, default 0 (loc f d y)) <$> populated_years f d).

(** "Left-outer semantics: every consumption date survives; unmatched dates
    get absent temperature fields": one aligned record per consumption
    record, carrying the fields of the temperature record of the same date
    when there is one. *)
Definition align_spec (consumption : list UsageRow) (temperature : list TempRow)
  : list MergedRow :=
  (λ c, match list_find (λ t, t_Date t = u_Date c) temperature with
        | Some (_, t) => joined c t
        | None => unmatched c
        end) <$> consumption.

(** Orders on the keys of anomaly rows: the order the specification names,
    (year, day_of_year), and the order (day_of_year, year). *)
Definition year_day_lt (a b : DevRow) : Prop :=
  (DevYear a < DevYear b)%Z
  ∨ (DevYear a = DevYear b ∧ (DevDayOfYear a < DevDayOfYear b)%Z).

Definition day_year_lt (a b : DevRow) : Prop :=
  (DevDayOfYear a < DevDayOfYear b)%Z
  ∨ (DevDayOfYear a = DevDayOfYear b ∧ (DevYear a < DevYear b)%Z).

#[global] Instance year_day_lt_dec : RelDecision year_day_lt.
Proof. intros a b. unfold year_day_lt. apply _. Defined.
#[global] Instance day_year_lt_dec : RelDecision day_year_lt.
Proof. intros a b. unfold day_year_lt. apply _. Defined.

(** The row order of a stacked frame: by index label, then column label. *)
Definition stacked_lt (a b : StackedRow) : Prop :=
  (s_DayOfYear a < s_DayOfYear b)%Z
  ∨ (s_DayOfYear a = s_DayOfYear b ∧ (s_Year a < s_Year b)%Z).

(** A wide frame as [pivot] builds it: strictly ascending index labels and,
    in every row, strictly ascending column labels. *)
Definition sorted_frame (f : Frame) : Prop :=
  StronglySorted Z.lt f.*1 ∧ Forall (λ r, StronglySorted Z.lt r.2.*1) f.

(** The report of a run that passes every check. *)
Definition report (high_usage_threshold low_temp_threshold : Qc)
    (elec_df gas_df : list UsageRow) (temp_df : list TempRow) : Report :=
  let merged_elec := merge_left elec_df temp_df in
  let merged_gas := merge_left gas_df temp_df in
  let daily_elec := groupby Usage nansum merged_elec in
  let daily_gas := groupby Usage nansum merged_gas in
  let daily_elec_pivot := pivot_table daily_elec in
  let daily_gas_pivot := pivot_table daily_gas in
  let mean_elec_per_day := row_mean daily_elec_pivot in
  let mean_gas_per_day := row_mean daily_gas_pivot in
  let dev_elec_daily := deviation daily_elec_pivot mean_elec_per_day in
  let dev_gas_daily := deviation daily_gas_pivot mean_gas_per_day in
  let daily_temp := groupby Avg_Temp_C nanmean merged_elec in
  let daily_temp_pivot := pivot_table daily_temp in
  let std_temp_day := row_mean daily_temp_pivot in
  let temp_dev_daily := deviation daily_temp_pivot std_temp_day in
  let merged_dev_daily := merge_inner (stack dev_gas_daily) (stack temp_dev_daily) in
  mkReport merged_elec merged_gas daily_elec daily_gas
    daily_elec_pivot daily_gas_pivot mean_elec_per_day mean_gas_per_day
    dev_elec_daily dev_gas_daily daily_temp daily_temp_pivot
    std_temp_day temp_dev_daily merged_dev_daily
    (select_high_usage_warm_days high_usage_threshold low_temp_threshold
       merged_dev_daily).

(** The exception a run ends with when a frame has no row: which of the
    statements of the script raises first. *)
Definition abort_error (elec_df gas_df : list UsageRow) : Error :=
  match elec_df, gas_df with
  | [], _ => ValueError "NaTType does not support strftime"
  | _ :: _, [] => AssertionError "Gas DataFrame is empty. Check file contents."
  | _ :: _, _ :: _ => AssertionError "Electricity correlation is NaN"
  end.

(** Sample frames used by the examples below. *)
Definition qz (n : Z) : option Qc := Some (Qc_of_Z n).

(** Four days of gas, electricity and temperature. *)
Definition sample_gas : list UsageRow :=
  [mkUsage (mkDate 2023 1 1) (qz 0); mkUsage (mkDate 2023 1 2) (qz 10);
   mkUsage (mkDate 2024 1 1) (qz 10); mkUsage (mkDate 2024 1 2) (qz 0)].
Definition sample_elec : list UsageRow :=
  [mkUsage (mkDate 2023 1 1) (qz 1); mkUsage (mkDate 2023 1 2) (qz 2);
   mkUsage (mkDate 2024 1 1) (qz 3); mkUsage (mkDate 2024 1 2) (qz 4)].
Definition sample_temp : list TempRow :=
  [mkTemp (mkDate 2023 1 1) None None (qz 0);
   mkTemp (mkDate 2023 1 2) None None (qz 10);
   mkTemp (mkDate 2024 1 1) None None (qz 10);
   mkTemp (mkDate 2024 1 2) None None (qz 0)].
Definition sample_today : date := mkDate 2025 3 9.

(** * Properties *)

(** ** Calendar *)

Section calendar_facts.
Local Open Scope Z_scope.

Lemma month_cases (m : Z) :
  1 ≤ m ≤ 12 →
  m = 1 ∨ m = 2 ∨ m = 3 ∨ m = 4 ∨ m = 5 ∨ m = 6 ∨
  m = 7 ∨ m = 8 ∨ m = 9 ∨ m = 10 ∨ m = 11 ∨ m = 12.
Proof. lia. Qed.

Lemma days_before_month_eq (y m : Z) :
  1 ≤ m ≤ 12 →
  days_before_month y m =
    cumulative_days m + (if is_leap_year y && (2 <? m) then 1 else 0).
Proof.
  intros Hm. unfold days_before_month, days_in_month.
  generalize (is_leap_year y). intros leap.
  destruct (month_cases m Hm) as
    [->|[->|[->|[->|[->|[->|[->|[->|[->|[->|[->| ->]]]]]]]]]]];
    destruct leap; reflexivity.
Qed.

Lemma dayofyear_range (d : date) :
  valid_date d →
  1 ≤ dt_dayofyear d ≤ (if is_leap_year (dt_year d) then 366 else 365).
Proof.
  destruct d as [y m dd]. unfold valid_date, dt_dayofyear. simpl.
  intros [Hm Hd]. rewrite days_before_month_eq by done.
  revert Hd. unfold days_in_month.
  destruct (month_cases m Hm) as
    [->|[->|[->|[->|[->|[->|[->|[->|[->|[->|[->| ->]]]]]]]]]]];
    destruct (is_leap_year y); simpl; lia.
Qed.

(** Day 366 only exists in leap years. *)
Lemma dayofyear_366_leap (d : date) :
  valid_date d → dt_dayofyear d = 366 → is_leap_year (dt_year d) = true.
Proof.
  intros Hv H366. pose proof (dayofyear_range d Hv) as Hr.
  destruct (is_leap_year (dt_year d)); [done | lia].
Qed.
End calendar_facts.

(** ** Sorted distinct labels *)

Section sorted_labels.
Local Open Scope Z_scope.

#[global] Instance key_le_total : Total key_le.
Proof. intros [a1 a2] [b1 b2]. unfold key_le. simpl. lia. Qed.
#[global] Instance key_le_trans : Transitive key_le.
Proof. intros [a1 a2] [b1 b2] [c1 c2]. unfold key_le. simpl. lia. Qed.
#[global] Instance key_le_antisymm : AntiSymm (=) key_le.
Proof.
  intros [a1 a2] [b1 b2]. unfold key_le. simpl. intros ??.
  f_equal; lia.
Qed.

Context {A : Type} `{EqDecision A} (R : relation A)
  `{!RelDecision R, !Total R, !Transitive R, !AntiSymm (=) R}.

Lemma StronglySorted_mono (R' : relation A) (l : list A) :
  (∀ x y, R x y → R' x y) → StronglySorted R l → StronglySorted R' l.
Proof.
  intros HR. induction 1 as [|x l Hs IH Hx]; constructor; [done|].
  eapply Forall_impl; [exact Hx|]. intros y. apply HR.
Qed.

Lemma elem_of_sort_distinct (l : list A) (x : A) : x ∈ sort_distinct R l ↔ x ∈ l.
Proof.
  unfold sort_distinct. rewrite merge_sort_Permutation.
  apply elem_of_remove_dups.
Qed.

Lemma NoDup_sort_distinct (l : list A) : NoDup (sort_distinct R l).
Proof.
  unfold sort_distinct. rewrite merge_sort_Permutation.
  apply NoDup_remove_dups.
Qed.

Lemma Sorted_sort_distinct (l : list A) : Sorted R (sort_distinct R l).
Proof. apply (Sorted_merge_sort R). Qed.

(** The result depends on the set of labels only. *)
Lemma sort_distinct_ext (l k : list A) :
  (∀ x, x ∈ l ↔ x ∈ k) → sort_distinct R l = sort_distinct R k.
Proof.
  intros Hlk. apply (Sorted_unique R); try apply Sorted_sort_distinct.
  apply NoDup_Permutation; try apply NoDup_sort_distinct.
  intros x. rewrite !elem_of_sort_distinct. apply Hlk.
Qed.

Lemma sort_distinct_perm (l k : list A) :
  l ≡ₚ k → sort_distinct R l = sort_distinct R k.
Proof. intros Hp. apply sort_distinct_ext. intros x. by rewrite Hp. Qed.

(** Sorted and duplicate-free means strictly ascending. *)
Lemma Sorted_NoDup_strict (l : list A) :
  Sorted R l → NoDup l → StronglySorted (λ x y, R x y ∧ x ≠ y) l.
Proof.
  intros Hs%Sorted_StronglySorted; [|done].
  induction Hs as [|x l Hs IH Hx]; intros Hnd; [constructor|].
  apply NoDup_cons in Hnd as [Hxl Hnd]. constructor; [by apply IH|].
  apply Forall_forall. intros y Hy. split.
  - by eapply Forall_forall in Hx.
  - intros ->. done.
Qed.
End sorted_labels.

Lemma elem_of_sorted_unique (l : list Z) (x : Z) : x ∈ sorted_unique l ↔ x ∈ l.
Proof. apply (elem_of_sort_distinct Z.le). Qed.

Lemma NoDup_sorted_unique (l : list Z) : NoDup (sorted_unique l).
Proof. apply (NoDup_sort_distinct Z.le). Qed.

Lemma sorted_unique_strict (l : list Z) : StronglySorted Z.lt (sorted_unique l).
Proof.
  eapply StronglySorted_mono; last first.
  - apply (Sorted_NoDup_strict Z.le); [apply Sorted_sort_distinct, _|].
    apply NoDup_sorted_unique.
  - simpl. intros x y ?. lia.
Qed.

Lemma elem_of_sorted_unique_keys (l : list (Z * Z)) (k : Z * Z) :
  k ∈ sorted_unique_keys l ↔ k ∈ l.
Proof. apply (elem_of_sort_distinct key_le). Qed.

Lemma NoDup_sorted_unique_keys (l : list (Z * Z)) : NoDup (sorted_unique_keys l).
Proof. apply (NoDup_sort_distinct key_le). Qed.

(** ** Label lookups *)

Lemma assoc_fmap_label {V} (f : Z → Z * V) (l : list Z) (k : Z) :
  (∀ x, (f x).1 = x) →
  assoc k (f <$> l) = if decide (k ∈ l) then Some (f k).2 else None.
Proof.
  intros Hf. induction l as [|x l IH].
  - rewrite decide_False; [done | apply not_elem_of_nil].
  - rewrite fmap_cons. simpl. specialize (Hf x) as Hx.
    destruct (f x) as [x' v] eqn:Hfx. simpl in Hx. subst x'.
    destruct (decide (x = k)) as [->|Hne].
    + rewrite decide_True; [by rewrite Hfx | left].
    + rewrite IH. destruct (decide (k ∈ l)) as [Hin|Hin].
      * rewrite decide_True; [done | by right].
      * rewrite decide_False; [done|]. rewrite not_elem_of_cons. naive_solver.
Qed.

Lemma assoc_fmap_value {V W} (f : Z * V → Z * W) (g : Z → V → W)
    (l : list (Z * V)) (k : Z) :
  (∀ c, f c = (c.1, g c.1 c.2)) →
  assoc k (f <$> l) = g k <$> assoc k l.
Proof.
  intros Hf. induction l as [|[x v] l IH]; [done|].
  rewrite fmap_cons, Hf. simpl.
  destruct (decide (x = k)) as [->|Hne]; [done | apply IH].
Qed.

Lemma assoc_Some_elem_of {V} (l : list (Z * V)) (k : Z) (v : V) :
  assoc k l = Some v → (k, v) ∈ l.
Proof.
  induction l as [|[x w] l IH]; simpl; [done|].
  destruct (decide (x = k)) as [->|Hne].
  - intros [= ->]. left.
  - intros H. right. by apply IH.
Qed.

Lemma assoc_None_not_elem_of {V} (l : list (Z * V)) (k : Z) :
  assoc k l = None ↔ k ∉ l.*1.
Proof.
  induction l as [|[x w] l IH]; simpl.
  - split; [intros _; apply not_elem_of_nil | done].
  - destruct (decide (x = k)) as [->|Hne].
    + split; [done | intros H; exfalso; apply H; left].
    + rewrite IH, not_elem_of_cons.
      split; [intros H; split; [congruence | exact H] | intros [_ H]; exact H].
Qed.

Lemma assoc_NoDup_elem_of {V} (l : list (Z * V)) (k : Z) (v : V) :
  NoDup l.*1 → (k, v) ∈ l → assoc k l = Some v.
Proof.
  induction l as [|[x w] l IH]; simpl; intros Hnd Hin.
  - by apply elem_of_nil in Hin.
  - apply NoDup_cons in Hnd as [Hx Hnd].
    apply elem_of_cons in Hin as [[= <- <-]|Hin].
    + by rewrite decide_True.
    + rewrite decide_False; [by apply IH|].
      intros ->. apply Hx. apply list_elem_of_fmap. by exists (k, v).
Qed.

Lemma filter_eq_NoDup {A} `{EqDecision A} (l : list A) (a : A) :
  NoDup l → filter (λ x, x = a) l = if decide (a ∈ l) then [a] else [].
Proof.
  induction l as [|x l IH]; intros Hnd.
  - rewrite decide_False; [done | apply not_elem_of_nil].
  - apply NoDup_cons in Hnd as [Hx Hnd]. rewrite filter_cons, IH by done.
    destruct (decide (x = a)) as [->|Hne].
    + rewrite (decide_False (P:=a ∈ l)) by done.
      rewrite (decide_True (P:=a ∈ a :: l)); [done | left].
    + destruct (decide (a ∈ l)) as [Hin|Hin].
      * rewrite decide_True; [done | by right].
      * rewrite decide_False; [done|]. rewrite not_elem_of_cons. naive_solver.
Qed.

Lemma filter_fmap_comm {A B} (f : A → B) (P : B → Prop) `{!∀ y, Decision (P y)}
    (l : list A) :
  filter P (f <$> l) = f <$> filter (λ x, P (f x)) l.
Proof.
  induction l as [|x l IH]; [done|].
  rewrite fmap_cons, !filter_cons, IH. by destruct (decide (P (f x))).
Qed.

Lemma filter_none {A} (P : A → Prop) `{!∀ x, Decision (P x)} (l : list A) :
  (∀ x, x ∈ l → ¬ P x) → filter P l = [].
Proof.
  induction l as [|x l IH]; intros Hl; [done|].
  rewrite filter_cons_False by (apply Hl; left).
  apply IH. intros z Hz. apply Hl. by right.
Qed.

(** ** The aggregated table and its pivot *)

Lemma groupby_pivot_keys col agg rows :
  pivot_key <$> groupby col agg rows
  = (λ k, (k.2, k.1)) <$> sorted_unique_keys (group_key <$> rows).
Proof. unfold groupby. rewrite <-list_fmap_compose. done. Qed.

Lemma NoDup_groupby col agg rows : NoDup (pivot_key <$> groupby col agg rows).
Proof.
  rewrite groupby_pivot_keys. apply NoDup_fmap_2.
  - intros [a b] [c d]. simpl. congruence.
  - apply NoDup_sorted_unique_keys.
Qed.

(** [pivot] never raises on the output of [groupby]. *)
Lemma pivot_groupby col agg rows :
  pivot (groupby col agg rows) = Ok (pivot_table (groupby col agg rows)).
Proof. unfold pivot. rewrite decide_True; [done | apply NoDup_groupby]. Qed.

Lemma entry_groupby col agg rows d y :
  entry (groupby col agg rows) d y
  = if decide ((y, d) ∈ group_key <$> rows) then agg (group col (y, d) rows)
    else None.
Proof.
  unfold entry, groupby. rewrite filter_fmap_comm.
  rewrite (list_filter_iff _ (λ k, k = (y, d))); last first.
  { intros [a b]. unfold pivot_key. simpl. naive_solver. }
  rewrite filter_eq_NoDup by apply NoDup_sorted_unique_keys.
  destruct (decide ((y, d) ∈ sorted_unique_keys (group_key <$> rows))) as [Hin|Hin];
    rewrite elem_of_sorted_unique_keys in Hin.
  - by rewrite decide_True.
  - by rewrite decide_False.
Qed.

Lemma entry_Some_labels t d y v :
  entry t d y = Some v → d ∈ d_DayOfYear <$> t ∧ y ∈ d_Year <$> t.
Proof.
  unfold entry. destruct (filter _ t) as [|r l] eqn:Hf; [done|].
  intros _. assert (r ∈ filter (λ r, pivot_key r = (d, y)) t) as Hr.
  { rewrite Hf. left. }
  apply list_elem_of_filter in Hr as [[= <- <-] Hr].
  split; apply list_elem_of_fmap; by exists r.
Qed.

(** Reading the pivot by labels gives the long-form value. *)
Lemma loc_pivot_table t d y : loc (pivot_table t) d y = entry t d y.
Proof.
  unfold loc, pivot_table, series_at.
  rewrite assoc_fmap_label by done.
  case_decide as Hd; simpl.
  - rewrite assoc_fmap_label by done. case_decide as Hy; [done|].
    simpl. destruct (entry t d y) eqn:He; [|done].
    apply entry_Some_labels in He as [_ He].
    by apply elem_of_sorted_unique in He.
  - destruct (entry t d y) eqn:He; [|done].
    apply entry_Some_labels in He as [He _].
    by apply elem_of_sorted_unique in He.
Qed.

(** Every cell of the aggregated table, read through its pivot. *)
Lemma loc_pivot_groupby col agg rows d y :
  loc (pivot_table (groupby col agg rows)) d y
  = if decide ((y, d) ∈ group_key <$> rows) then agg (group col (y, d) rows)
    else None.
Proof. by rewrite loc_pivot_table, entry_groupby. Qed.

(** The script's run, once every check has passed. *)
Lemma analysis_Ok_inv high low today elec_df gas_df temp_df rep :
  analysis high low today elec_df gas_df temp_df = Ok rep →
  rep = report high low elec_df gas_df temp_df.
Proof.
  unfold analysis. rewrite !pivot_groupby.
  destruct (api_date_range _ _ _); simpl; [|done].
  repeat (match goal with
          | |- context [assert ?b ?m] => destruct (assert b m); simpl; [|done]
          end).
  by intros [= <-].
Qed.

(** ** DayOfYearAggregator *)

(** Spec section 8: entries 5.0 and 3.0 on (2024, day 1) aggregate to 8.0. *)
Example aggregate_same_day :
  groupby Usage nansum
    (merge_left [mkUsage (mkDate 2024 1 1) (qz 5); mkUsage (mkDate 2024 1 1) (qz 3)] [])
  = [mkDaily 2024 1 (qz 8)].
Proof. compute_done. Qed.





(** The mean, not the first value nor the sum: one consumption record on
    2024-01-01 aligned with two temperature records of that day, 4 and 6,
    gives the temperature cell (4 + 6) / 2 = 5. *)
Example temperature_cell_is_the_mean :
  let rep :=
    report HIGH_USAGE_THRESHOLD LOW_TEMP_THRESHOLD
      [mkUsage (mkDate 2024 1 1) (qz 7)] [mkUsage (mkDate 2024 1 1) (qz 7)]
      [mkTemp (mkDate 2024 1 1) None None (qz 4);
       mkTemp (mkDate 2024 1 1) None None (qz 6)] in
  loc (r_daily_temp_pivot rep) 1 2024 = qz 5
  ∧ loc (r_daily_elec_pivot rep) 1 2024 = qz 14.
Proof. intros rep. compute_done. Qed.

(** ** BaselineEngine *)

Lemma dropna_cons (o : option Qc) (l : list (option Qc)) :
  dropna (o :: l) = match o with Some v => v :: dropna l | None => dropna l end.
Proof. by destruct o. Qed.

Lemma dropna_fmap {A} (g : A → option Qc) (l : list A) :
  dropna (g <$> l) = (λ y, default 0 (g y)) <$> filter (λ y, is_Some (g y)) l.
Proof.
  induction l as [|x l IH]; [done|].
  rewrite fmap_cons, dropna_cons, filter_cons, IH.
  destruct (g x) as [v|] eqn:Hx.
  - rewrite decide_True by eauto. by rewrite fmap_cons, Hx.
  - rewrite decide_False; [done|]. by intros [? ?].
Qed.

Lemma series_at_row_mean_pivot t d :
  series_at (row_mean (pivot_table t)) d
  = if decide (d ∈ sorted_unique (d_DayOfYear <$> t))
    then nanmean (entry t d <$> sorted_unique (d_Year <$> t)) else None.
Proof.
  unfold series_at, row_mean, pivot_table.
  rewrite <-list_fmap_compose, assoc_fmap_label by done.
  case_decide; [|done]. simpl. f_equal.
  by rewrite <-list_fmap_compose.
Qed.

Lemma frame_columns_pivot_table t d :
  d ∈ sorted_unique (d_DayOfYear <$> t) →
  frame_columns (pivot_table t) = sorted_unique (d_Year <$> t).
Proof.
  unfold pivot_table. destruct (sorted_unique (d_DayOfYear <$> t)) as [|i idx].
  - by intros ?%elem_of_nil.
  - intros _. simpl. rewrite <-list_fmap_compose. apply list_fmap_id.
Qed.

Lemma baseline_refines_spec t d :
  series_at (row_mean (pivot_table t)) d = baseline_spec (pivot_table t) d.
Proof.
  rewrite series_at_row_mean_pivot. unfold baseline_spec, populated_years.
  case_decide as Hd.
  - rewrite (frame_columns_pivot_table t d Hd).
    unfold nanmean. rewrite dropna_fmap. f_equal.
    rewrite (list_filter_iff (λ y, is_Some (loc (pivot_table t) d y))
               (λ y, is_Some (entry t d y))); last first.
    { intros y. by rewrite loc_pivot_table. }
    apply list_fmap_ext. intros _ y _. by rewrite loc_pivot_table.
  - rewrite filter_none; [done|]. intros y _ [v Hv].
    rewrite loc_pivot_table in Hv.
    apply entry_Some_labels in Hv as [Hv _].
    by apply elem_of_sorted_unique in Hv.
Qed.

Lemma mean_of_is_Some (vs : list Qc) : is_Some (mean_of vs) ↔ vs ≠ [].
Proof.
  destruct vs; simpl; split; first [done | by intros [? ?] | by eauto].
Qed.

Lemma populated_year_has_record col agg rows d y :
  y ∈ populated_years (pivot_table (groupby col agg rows)) d →
  ∃ r, r ∈ rows ∧ Year r = y ∧ DayOfYear r = d.
Proof.
  unfold populated_years. intros [[v Hv] _]%list_elem_of_filter.
  rewrite loc_pivot_groupby in Hv. case_decide as Hk; [|done].
  apply list_elem_of_fmap in Hk as (r & [= -> ->] & Hr). eauto.
Qed.

(** C1: for every day_of_year [d] the baseline at [d] is the arithmetic mean
    of the matrix cells [(y, d)] over exactly the years [y] whose cell at
    [d] is populated: the sum of those cells divided by the number of those
    years.  It exists precisely when at least one year is populated at
    [d]; on day 366 the populated years are leap years. *)
Theorem baseline_is_mean_over_populated_years
    (col : MergedRow → option Qc) (agg : list (option Qc) → option Qc)
    (rows : list MergedRow) (d : Z) :
  Forall (λ r, valid_date (Date r)) rows →
  let matrix := pivot_table (groupby col agg rows) in
  let baseline := row_mean matrix in
  let years := populated_years matrix d in
  let total := foldr Qcplus 0 ((λ y, default 0 (loc matrix d y)) <$> years) in
  let count := Qc_of_Z (Z.of_nat (length years)) in
  series_at baseline d = (if decide (years = []) then None else Some (total / count))
  ∧ (∀ b, series_at baseline d = Some b → b * count = total ∧ count ≠ 0)
  ∧ (is_Some (series_at baseline d) ↔ (0 < length years)%nat)
  ∧ (years = [] → series_at baseline d = None)
  ∧ (∀ y, y ∈ populated_years matrix 366 → is_leap_year y = true).
Proof.
  intros Hvalid matrix baseline years total count.
  assert (series_at baseline d
          = if decide (years = []) then None else Some (total / count)) as Hb.
  { unfold baseline, matrix. rewrite baseline_refines_spec.
    unfold baseline_spec, mean_of, Qsum. fold matrix. fold years.
    rewrite length_fmap. fold total count.
    by destruct years. }
  split; [exact Hb|]. split; [|split; [|split]].
  - intros b Hsome. rewrite Hb in Hsome.
    destruct (decide (years = [])) as [|Hne]; [done|]. injection Hsome as <-.
    assert (count ≠ 0) as Hc.
    { unfold count. destruct years as [|y ys]; [done|].
      rewrite <-Z2Qc_inj_0. intros H%Z2Qc_inj. simpl in H. lia. }
    split; [|done]. by field.
  - rewrite Hb. destruct years as [|y ys]; simpl.
    + split; [by intros [? ?] | lia].
    + split; [lia | by eauto].
  - intros Hnil. rewrite Hb. by rewrite decide_True.
  - intros y (r & Hr & <- & H366)%populated_year_has_record.
    apply dayofyear_366_leap; [|done].
    by eapply Forall_forall in Hvalid.
Qed.

(** Spec section 8: with years 2020 (leap), 2021 and 2022, the baseline of
    day 366 is computed from the value of 2020 alone, 7; the baseline of day
    365, populated in the three years with 4, 5 and 9, is 18 / 3 = 6. *)
Lemma baseline_is_mean_over_populated_years_witness :
  let rows :=
    merge_left
      [mkUsage (mkDate 2020 12 30) (qz 4); mkUsage (mkDate 2020 12 31) (qz 7);
       mkUsage (mkDate 2021 12 31) (qz 5); mkUsage (mkDate 2022 12 31) (qz 9)] [] in
  let matrix := pivot_table (groupby Usage nansum rows) in
  Forall (λ r, valid_date (Date r)) rows
  ∧ populated_years matrix 366 = [2020%Z]
  ∧ series_at (row_mean matrix) 366 = qz 7
  ∧ populated_years matrix 365 = [2020; 2021; 2022]%Z
  ∧ series_at (row_mean matrix) 365 = qz 6
  ∧ series_at (row_mean matrix) 365
    = Some ((Qc_of_Z 4 + (Qc_of_Z 5 + (Qc_of_Z 9 + 0))) / Qc_of_Z 3).
Proof.
  intros rows matrix.
  assert (Forall (λ r, valid_date (Date r)) rows) as Hvalid by compute_done.
  split; [exact Hvalid|]. split; [compute_done|]. split; [compute_done|].
  split; [compute_done|]. split; [compute_done|].
  pose proof (proj1 (baseline_is_mean_over_populated_years
                       Usage nansum rows 365 Hvalid)) as H365.
  fold matrix in H365.
  assert (populated_years matrix 365 = [2020; 2021; 2022]%Z) as Hys by compute_done.
  rewrite Hys in H365. rewrite H365. clear H365.
  rewrite decide_False by done. reflexivity.
Defined.

Lemma loc_deviation (f : Frame) (m : Series) (d y : Z) :
  loc (deviation f m) d y = sub (loc f d y) (series_at m d).
Proof.
  unfold loc, deviation.
  rewrite (assoc_fmap_value _
             (λ d row, (λ c : Z * option Qc, (c.1, sub c.2 (series_at m d))) <$> row))
    by done.
  destruct (assoc d f) as [row|]; simpl; [|done].
  unfold series_at at 1 3.
  rewrite (assoc_fmap_value _ (λ _ v, sub v (series_at m d))) by done.
  by destruct (assoc y row) as [[v|]|].
Qed.

(** C2: every populated cell of a deviation matrix equals the raw cell at
    the same (year, day_of_year) minus the baseline of that day_of_year
    (exactly, hence within any tolerance); a cell whose raw value or whose
    baseline is absent is absent in the deviation matrix, never zero. *)
Theorem deviation_is_raw_minus_baseline (raw : Frame) (d y : Z) :
  let baseline := row_mean raw in
  let dev := deviation raw baseline in
  (∀ v, loc dev d y = Some v ↔
        ∃ r b, loc raw d y = Some r ∧ series_at baseline d = Some b ∧ v = r - b)
  ∧ (loc dev d y = None ↔ loc raw d y = None ∨ series_at baseline d = None).
Proof.
  intros baseline dev. unfold dev. rewrite loc_deviation.
  destruct (loc raw d y) as [r|], (series_at baseline d) as [b|]; simpl;
    naive_solver.
Qed.

(** ** SeriesAligner *)

Section aligner.
Context {A K : Type} `{EqDecision K} (f : A → K).

Lemma NoDup_fmap_eq (l : list A) (x y : A) :
  NoDup (f <$> l) → x ∈ l → y ∈ l → f x = f y → x = y.
Proof.
  induction l as [|z l IH]; intros Hnd Hx Hy Hxy.
  - by apply elem_of_nil in Hx.
  - rewrite fmap_cons in Hnd. apply NoDup_cons in Hnd as [Hz Hnd].
    apply elem_of_cons in Hx as [->|Hx], Hy as [->|Hy]; try done.
    + exfalso. apply Hz. rewrite Hxy. by apply list_elem_of_fmap_2.
    + exfalso. apply Hz. rewrite <-Hxy. by apply list_elem_of_fmap_2.
    + by apply IH.
Qed.

(** With distinct keys a key selects at most one row, the first found. *)
Lemma filter_key_NoDup (l : list A) (a : K) :
  NoDup (f <$> l) →
  filter (λ x, f x = a) l
  = match list_find (λ x, f x = a) l with
    | Some (_, x) => [x]
    | None => []
    end.
Proof.
  induction l as [|x l IH]; intros Hnd; [done|].
  rewrite fmap_cons in Hnd. apply NoDup_cons in Hnd as [Hx Hnd].
  rewrite filter_cons. simpl. destruct (decide (f x = a)) as [<-|Hne].
  - rewrite filter_none; [done|].
    intros z Hz Hfz. apply Hx. rewrite <-Hfz. by apply list_elem_of_fmap_2.
  - rewrite IH by done. by destruct (list_find _ l) as [[? ?]|].
Qed.
End aligner.

Lemma merge_left_refines_spec consumption temperature :
  NoDup (t_Date <$> temperature) →
  merge_left consumption temperature = align_spec consumption temperature.
Proof.
  intros Hnd. unfold merge_left, align_spec, matches.
  induction consumption as [|c cs IH]; [done|].
  rewrite bind_cons, fmap_cons, IH. f_equal.
  rewrite (filter_key_NoDup t_Date) by done.
  by destruct (list_find _ temperature) as [[? ?]|].
Qed.

(** The output of the merge, consumption record by consumption record. *)
Lemma merge_left_concat consumption temperature :
  merge_left consumption temperature
  = concat ((λ c, if decide (matches temperature c = []) then [unmatched c]
                  else joined c <$> matches temperature c) <$> consumption).
Proof.
  unfold merge_left. induction consumption as [|c cs IH]; [done|].
  rewrite bind_cons, fmap_cons, IH. simpl. f_equal.
  by destruct (matches temperature c).
Qed.

(** C7, as stated, fails when two temperature records share a date: the
    consumption record of that date appears once per such record, as
    [pd.merge(..., how='left')] repeats it, not exactly once. *)
Lemma consumption_record_repeated_per_temperature_record :
  let consumption := [mkUsage (mkDate 2024 1 1) (qz 10)] in
  let temperature :=
    [mkTemp (mkDate 2024 1 1) (qz 2) (qz 8) (qz 5);
     mkTemp (mkDate 2024 1 1) (qz 3) (qz 9) (qz 6)] in
  merge_left consumption temperature
  = [mkMerged (mkDate 2024 1 1) (qz 10) (qz 2) (qz 8) (qz 5);
     mkMerged (mkDate 2024 1 1) (qz 10) (qz 3) (qz 9) (qz 6)]
  ∧ length (merge_left consumption temperature) ≠ length consumption
  ∧ merge_left consumption temperature ≠ align_spec consumption temperature.
Proof. intros consumption temperature. compute_done. Qed.

(** C7 (amended): aligning a consumption series with a temperature series
    is a left outer join on date equality.  The output is made, in the
    order of the consumption records, of one block per consumption record,
    with its date and usage: a single record with absent temperature fields
    when no temperature record has that date, and otherwise one record per
    temperature record of that date, in their order, carrying its fields.
    When no two temperature records share a date, every consumption record
    appears exactly once: the output has one record per consumption record,
    at the same position, with the fields of the temperature record of
    that date when there is one. *)
Theorem merge_left_is_left_outer_join
    (consumption : list UsageRow) (temperature : list TempRow) :
  let output := merge_left consumption temperature in
  (∃ blocks : list (list MergedRow),
     output = concat blocks
     ∧ Forall2 (λ c block,
         let same_date := filter (λ t, t_Date t = u_Date c) temperature in
         block = (if decide (same_date = []) then [unmatched c]
                  else joined c <$> same_date)
         ∧ length block = (1 `max` length same_date)%nat
         ∧ Forall (λ m, Date m = u_Date c ∧ Usage m = u_Usage c) block)
       consumption blocks)
  ∧ (NoDup (t_Date <$> temperature) →
     output = align_spec consumption temperature
     ∧ length output = length consumption
     ∧ ∀ i c, consumption !! i = Some c →
         ∃ m, output !! i = Some m
           ∧ Date m = u_Date c ∧ Usage m = u_Usage c
           ∧ (∀ t, t ∈ temperature → t_Date t = u_Date c → m = joined c t)
           ∧ ((∀ t, t ∈ temperature → t_Date t ≠ u_Date c) → m = unmatched c)).
Proof.
  intros output. split.
  - eexists. split; [apply merge_left_concat|].
    apply Forall2_fmap_r, Forall_Forall2_diag, Forall_forall.
    intros c _. unfold compose, matches. cbn beta zeta.
    destruct (decide (filter (λ t, t_Date t = u_Date c) temperature = []))
      as [->|Hsame].
    + split; [done|]. split; [done|]. by repeat constructor.
    + split; [done|]. split.
      * rewrite length_fmap.
        destruct (filter (λ t, t_Date t = u_Date c) temperature); [done|].
        simpl. lia.
      * apply Forall_fmap, Forall_forall. by intros ? _.
  - intros Hnd. unfold output. rewrite merge_left_refines_spec by done.
    split; [done|]. split; [apply length_fmap|].
    intros i c Hc. unfold align_spec. rewrite list_lookup_fmap, Hc. simpl.
    eexists; split; [done|].
    destruct (list_find _ temperature) as [[j t']|] eqn:Hfind.
    + apply list_find_Some in Hfind as (Hj & Hdate & _).
      apply list_elem_of_lookup_2 in Hj.
      repeat split; try done.
      * intros t Ht Ht'. f_equal.
        apply (NoDup_fmap_eq t_Date temperature); [done..|congruence].
      * intros Hno. by destruct (Hno t' Hj).
    + apply list_find_None in Hfind. repeat split; try done.
      intros t Ht Hdate. exfalso.
      eapply Forall_forall in Hfind; [|exact Ht]. done.
Qed.

(** Spec section 8: records (2024-01-01, 10) and (2024-01-02, 12) against
    the temperature (2024-01-01, 5.0) give two aligned records, the second
    with absent temperature fields. *)
Lemma merge_left_is_left_outer_join_witness :
  let consumption :=
    [mkUsage (mkDate 2024 1 1) (qz 10); mkUsage (mkDate 2024 1 2) (qz 12)] in
  let temperature := [mkTemp (mkDate 2024 1 1) (qz 2) (qz 8) (qz 5)] in
  NoDup (t_Date <$> temperature)
  ∧ merge_left consumption temperature
    = [mkMerged (mkDate 2024 1 1) (qz 10) (qz 2) (qz 8) (qz 5);
       mkMerged (mkDate 2024 1 2) (qz 12) None None None]
  ∧ merge_left consumption temperature = align_spec consumption temperature.
Proof.
  intros consumption temperature.
  assert (NoDup (t_Date <$> temperature)) as Hnd by compute_done.
  split; [exact Hnd|]. split; [compute_done|].
  exact (proj1 (proj2 (merge_left_is_left_outer_join consumption temperature) Hnd)).
Defined.

(** ** Order-preserving list operations *)

Section strongly_sorted.
Context {A B : Type} (RA : relation A) (RB : relation B).

Lemma StronglySorted_fmap_inv (f : A → B) (l : list A) :
  StronglySorted RB (f <$> l) → StronglySorted (λ x y, RB (f x) (f y)) l.
Proof.
  induction l as [|x l IH]; [constructor|].
  rewrite fmap_cons. intros [Hx Hl]%StronglySorted_cons.
  constructor; [by apply IH|]. by rewrite Forall_fmap in Hx.
Qed.

Lemma StronglySorted_filter (P : A → Prop) `{!∀ x, Decision (P x)} (l : list A) :
  StronglySorted RA l → StronglySorted RA (filter P l).
Proof.
  induction 1 as [|x l Hs IH Hx]; [constructor|].
  rewrite filter_cons. case_decide; [|done].
  constructor; [done|]. apply Forall_forall.
  intros y [_ Hy]%list_elem_of_filter. by eapply Forall_forall in Hx.
Qed.

Lemma StronglySorted_omap (g : A → option B) (l : list A) :
  (∀ x1 x2 y1 y2, RA x1 x2 → g x1 = Some y1 → g x2 = Some y2 → RB y1 y2) →
  StronglySorted RA l → StronglySorted RB (omap g l).
Proof.
  intros Hg. induction 1 as [|x l Hs IH Hx]; [constructor|].
  simpl. destruct (g x) as [y|] eqn:Hgx; [|done].
  constructor; [done|]. apply Forall_forall.
  intros y' (x' & Hx' & Hgx')%list_elem_of_omap.
  eapply Hg; [|done..]. by eapply Forall_forall in Hx.
Qed.

Lemma StronglySorted_bind (g : A → list B) (l : list A) :
  (∀ x, x ∈ l → StronglySorted RB (g x)) →
  (∀ x1 x2 y1 y2, RA x1 x2 → y1 ∈ g x1 → y2 ∈ g x2 → RB y1 y2) →
  StronglySorted RA l → StronglySorted RB (l ≫= g).
Proof.
  intros Hin Hcross Hl. induction Hl as [|x l Hs IH Hx]; [constructor|].
  rewrite bind_cons. apply StronglySorted_app_2.
  - intros y1 y2 Hy1 (x2 & Hy2 & Hx2)%list_elem_of_bind.
    eapply Hcross; [|done..]. by eapply Forall_forall in Hx.
  - apply Hin. left.
  - apply IH. intros z Hz. apply Hin. by right.
Qed.
End strongly_sorted.

Lemma StronglySorted_lt_NoDup (l : list Z) : StronglySorted Z.lt l → NoDup l.
Proof.
  induction 1 as [|x l Hs IH Hx]; constructor; [|done].
  intros Hin. eapply Forall_forall in Hx; [|exact Hin]. lia.
Qed.

(** ** Frames built by [pivot] and [deviation] are sorted *)

Lemma sorted_frame_pivot_table t : sorted_frame (pivot_table t).
Proof.
  unfold sorted_frame, pivot_table. split.
  - rewrite <-list_fmap_compose.
    rewrite (list_fmap_ext _ id _ (λ _ _ _, eq_refl)), list_fmap_id.
    apply sorted_unique_strict.
  - apply Forall_fmap, Forall_forall. intros d _. simpl.
    rewrite <-list_fmap_compose.
    rewrite (list_fmap_ext _ id _ (λ _ _ _, eq_refl)), list_fmap_id.
    apply sorted_unique_strict.
Qed.

Lemma deviation_labels (f : Frame) (m : Series) :
  (deviation f m).*1 = f.*1
  ∧ Forall2 (λ r' r, r'.2.*1 = r.2.*1) (deviation f m) f.
Proof.
  unfold deviation. split.
  - rewrite <-list_fmap_compose. by apply list_fmap_ext.
  - apply Forall2_fmap_l, Forall_Forall2_diag, Forall_forall.
    intros r _. simpl. rewrite <-list_fmap_compose. by apply list_fmap_ext.
Qed.

Lemma sorted_frame_deviation (f : Frame) (m : Series) :
  sorted_frame f → sorted_frame (deviation f m).
Proof.
  intros [Hidx Hrows]. destruct (deviation_labels f m) as [Hl Hr].
  split; [by rewrite Hl|].
  clear Hl Hidx. induction Hr as [|r' r l' l Hrr Hr IH]; [constructor|].
  apply Forall_cons in Hrows as [? ?]. constructor; [by rewrite Hrr | by apply IH].
Qed.

(** ** AnomalyDetector *)

Lemma sorted_frame_NoDup (f : Frame) :
  sorted_frame f → NoDup f.*1 ∧ ∀ r, r ∈ f → NoDup r.2.*1.
Proof.
  intros [Hidx Hrows]. split; [by apply StronglySorted_lt_NoDup|].
  intros r Hr. apply StronglySorted_lt_NoDup.
  by eapply Forall_forall in Hrows.
Qed.

(** The stacked rows are the populated cells. *)
Lemma elem_of_stack (f : Frame) (d y : Z) (v : Qc) :
  sorted_frame f → mkStacked d y v ∈ stack f ↔ loc f d y = Some v.
Proof.
  intros [Hidx Hrows]%sorted_frame_NoDup. unfold stack, loc, series_at.
  rewrite list_elem_of_bind. split.
  - intros ([d' row] & ([y' o] & Hc & Ho)%list_elem_of_omap & Hr).
    simpl in *. destruct o as [v'|]; [|done]. injection Ho as -> -> ->.
    rewrite (assoc_NoDup_elem_of f d row) by done.
    rewrite (assoc_NoDup_elem_of row y (Some v)); [done| |done].
    by apply (Hrows (d, row)).
  - destruct (assoc d f) as [row|] eqn:Hrow; [|done].
    destruct (assoc y row) as [o|] eqn:Hy; [|done]. simpl. intros ->.
    apply assoc_Some_elem_of in Hrow, Hy.
    exists (d, row). split; [|done].
    apply list_elem_of_omap. by exists (y, Some v).
Qed.

Lemma StronglySorted_stack (f : Frame) :
  sorted_frame f → StronglySorted stacked_lt (stack f).
Proof.
  intros [Hidx Hrows]. unfold stack.
  apply (StronglySorted_bind (λ r1 r2 : Z * Series, (r1.1 < r2.1)%Z)).
  - intros r Hr. eapply Forall_forall in Hrows; [|exact Hr].
    apply (StronglySorted_omap (λ c1 c2 : Z * option Qc, (c1.1 < c2.1)%Z)).
    + intros [y1 o1] [y2 o2] s1 s2 Hlt H1 H2. simpl in *.
      destruct o1, o2; simplify_eq/=. right. by split.
    + by apply StronglySorted_fmap_inv.
  - intros r1 r2 s1 s2 Hlt
      ([y1 o1] & _ & H1)%list_elem_of_omap ([y2 o2] & _ & H2)%list_elem_of_omap.
    destruct o1, o2; simplify_eq/=. by left.
  - by apply StronglySorted_fmap_inv.
Qed.

Lemma elem_of_merge_inner (left right : list StackedRow) (x : DevRow) :
  x ∈ merge_inner left right ↔
  ∃ l r, l ∈ left ∧ r ∈ right
    ∧ s_DayOfYear r = s_DayOfYear l ∧ s_Year r = s_Year l
    ∧ x = mkDev (s_DayOfYear l) (s_Year l) (s_value l) (s_value r).
Proof.
  unfold merge_inner. rewrite list_elem_of_bind. split.
  - intros (l & (r & -> & [[??] ?]%list_elem_of_filter)%list_elem_of_fmap & Hl).
    by exists l, r.
  - intros (l & r & Hl & Hr & Hd & Hy & ->). exists l. split; [|done].
    apply list_elem_of_fmap. exists r. split; [done|].
    by apply list_elem_of_filter.
Qed.

(** Keys are distinct in a stacked frame, so a key selects at most one row. *)
Lemma stacked_same_key_short (l : list StackedRow) (d y : Z) :
  StronglySorted stacked_lt l →
  (∀ r, r ∈ l → s_DayOfYear r = d ∧ s_Year r = y) →
  l = [] ∨ ∃ r, l = [r].
Proof.
  intros Hs Hk. destruct l as [|r1 [|r2 l]]; [by left | by right; eexists |].
  exfalso. apply StronglySorted_cons in Hs as [H12 _].
  apply Forall_cons in H12 as [H12 _].
  destruct (Hk r1) as [? ?]; [left|].
  destruct (Hk r2) as [? ?]; [right; left|].
  unfold stacked_lt in H12. lia.
Qed.

Lemma StronglySorted_merge_inner (left right : list StackedRow) :
  StronglySorted stacked_lt left → StronglySorted stacked_lt right →
  StronglySorted day_year_lt (merge_inner left right).
Proof.
  intros Hl Hr. unfold merge_inner.
  apply (StronglySorted_bind stacked_lt); [| |done].
  - intros l _.
    destruct (stacked_same_key_short
                (filter (λ r, s_DayOfYear r = s_DayOfYear l ∧ s_Year r = s_Year l) right)
                (s_DayOfYear l) (s_Year l)) as [->|[r ->]].
    + by apply StronglySorted_filter.
    + by intros r [? _]%list_elem_of_filter.
    + constructor.
    + repeat constructor.
  - intros l1 l2 x1 x2 Hlt
      (r1 & -> & _)%list_elem_of_fmap (r2 & -> & _)%list_elem_of_fmap.
    exact Hlt.
Qed.

Lemma StronglySorted_detect high low (devA devB : Frame) :
  sorted_frame devA → sorted_frame devB →
  StronglySorted day_year_lt (detect high low devA devB).
Proof.
  intros HA HB. unfold detect, select_high_usage_warm_days.
  apply StronglySorted_filter, StronglySorted_merge_inner;
    by apply StronglySorted_stack.
Qed.

Lemma elem_of_detect high low (devA devB : Frame) (d y : Z) (a b : Qc) :
  sorted_frame devA → sorted_frame devB →
  mkDev d y a b ∈ detect high low devA devB ↔
  loc devA d y = Some a ∧ loc devB d y = Some b ∧ high < a ∧ 0 < b.
Proof.
  intros HA HB. unfold detect, select_high_usage_warm_days.
  rewrite list_elem_of_filter, elem_of_merge_inner. simpl.
  rewrite <-(elem_of_stack devA), <-(elem_of_stack devB) by done. split.
  - intros ([? ?] & [dl yl vl] & [dr yr vr] & Hl & Hr & ? & ? & ?).
    simplify_eq/=. done.
  - intros (Hl & Hr & ? & ?). split; [done|].
    by exists (mkStacked d y a), (mkStacked d y b).
Qed.

(** C3: the detector emits a row for (year, day_of_year) exactly when both
    deviation matrices have a populated cell at that key and the first
    value passes its test (strictly above the usage threshold) and the
    second passes its own (strictly above 0); when no key passes both, the
    result is the empty sequence. *)
Theorem detect_emits_iff_both_populated_and_both_pass
    (high low : Qc) (devA devB : Frame) :
  sorted_frame devA → sorted_frame devB →
  (∀ d y a b,
     mkDev d y a b ∈ detect high low devA devB ↔
     loc devA d y = Some a ∧ loc devB d y = Some b ∧ high < a ∧ 0 < b)
  ∧ ((∀ d y a b, loc devA d y = Some a → loc devB d y = Some b →
                 ¬ (high < a ∧ 0 < b)) →
     detect high low devA devB = []).
Proof.
  intros HA HB. split.
  - intros d y a b. by apply elem_of_detect.
  - intros Hnone. apply elem_of_nil_inv. intros [d y a b] Hin.
    apply elem_of_detect in Hin as (Ha & Hb & ? & ?); [|done..].
    by apply (Hnone d y a b).
Qed.

(** Spec section 8: usage deviation 3.0 and temperature deviation 1.5 at
    (2024, day 10), thresholds 2.0 and 0, give exactly one row. *)
Lemma detect_emits_iff_both_populated_and_both_pass_witness :
  let devA : Frame := [(10%Z, [(2024%Z, qz 3)])] in
  let devB : Frame := [(10%Z, [(2024%Z, Some (Q2Qc (3 # 2)))])] in
  (sorted_frame devA ∧ sorted_frame devB)
  ∧ detect HIGH_USAGE_THRESHOLD LOW_TEMP_THRESHOLD devA devB
    = [mkDev 10 2024 (Qc_of_Z 3) (Q2Qc (3 # 2))]
  ∧ (mkDev 10 2024 (Qc_of_Z 3) (Q2Qc (3 # 2))
       ∈ detect HIGH_USAGE_THRESHOLD LOW_TEMP_THRESHOLD devA devB ↔
     loc devA 10 2024 = qz 3 ∧ loc devB 10 2024 = Some (Q2Qc (3 # 2))
     ∧ HIGH_USAGE_THRESHOLD < Qc_of_Z 3 ∧ 0 < Q2Qc (3 # 2)).
Proof.
  intros devA devB.
  assert (sorted_frame devA) as HA by (split; repeat constructor).
  assert (sorted_frame devB) as HB by (split; repeat constructor).
  split; [done|]. split; [compute_done|].
  exact (proj1 (detect_emits_iff_both_populated_and_both_pass
                  HIGH_USAGE_THRESHOLD LOW_TEMP_THRESHOLD devA devB HA HB)
           10%Z 2024%Z (Qc_of_Z 3) (Q2Qc (3 # 2))).
Defined.

(** Spec section 8: no row when the usage deviation 1.0 fails its test. *)
Example detect_below_threshold :
  detect HIGH_USAGE_THRESHOLD LOW_TEMP_THRESHOLD
    [(10%Z, [(2024%Z, qz 1)])] [(10%Z, [(2024%Z, qz 5)])] = [].
Proof. compute_done. Qed.

Lemma day_year_lt_NoDup_keys (l : list DevRow) :
  StronglySorted day_year_lt l →
  NoDup ((λ r, (DevYear r, DevDayOfYear r)) <$> l).
Proof.
  induction 1 as [|x l Hs IH Hx]; [constructor|].
  rewrite fmap_cons. constructor; [|done].
  intros (r & [= Hy Hd] & Hr)%list_elem_of_fmap.
  eapply Forall_forall in Hx; [|exact Hr].
  unfold day_year_lt in Hx. lia.
Qed.

(** C6, as stated, fails: on the sample frames the run flags day 1 of 2024
    and then day 2 of 2023, so the rows are not in (year, day_of_year)
    order. *)
Lemma anomaly_rows_not_ordered_by_year :
  main sample_today sample_elec sample_gas sample_temp
  = Ok (report HIGH_USAGE_THRESHOLD LOW_TEMP_THRESHOLD
          sample_elec sample_gas sample_temp)
  ∧ r_high_usage_warm_days
      (report HIGH_USAGE_THRESHOLD LOW_TEMP_THRESHOLD
         sample_elec sample_gas sample_temp)
    = [mkDev 1 2024 (Qc_of_Z 5) (Qc_of_Z 5); mkDev 2 2023 (Qc_of_Z 5) (Qc_of_Z 5)]
  ∧ ¬ StronglySorted year_day_lt
        (r_high_usage_warm_days
           (report HIGH_USAGE_THRESHOLD LOW_TEMP_THRESHOLD
              sample_elec sample_gas sample_temp)).
Proof. split; [compute_done|]. split; compute_done. Qed.

(** C6 (amended): the anomaly rows are ordered by day_of_year ascending,
    then year ascending, and no two rows share a (year, day_of_year) key. *)
Theorem anomaly_rows_ordered_by_day_then_year
    (high low : Qc) (devA devB : Frame) :
  sorted_frame devA → sorted_frame devB →
  StronglySorted day_year_lt (detect high low devA devB)
  ∧ NoDup ((λ r, (DevYear r, DevDayOfYear r)) <$> detect high low devA devB).
Proof.
  intros HA HB.
  assert (StronglySorted day_year_lt (detect high low devA devB)) as Hs
    by by apply StronglySorted_detect.
  split; [done | by apply day_year_lt_NoDup_keys].
Qed.

Lemma anomaly_rows_ordered_by_day_then_year_witness :
  let devA := r_dev_gas_daily
                (report HIGH_USAGE_THRESHOLD LOW_TEMP_THRESHOLD
                   sample_elec sample_gas sample_temp) in
  let devB := r_temp_dev_daily
                (report HIGH_USAGE_THRESHOLD LOW_TEMP_THRESHOLD
                   sample_elec sample_gas sample_temp) in
  (sorted_frame devA ∧ sorted_frame devB)
  ∧ StronglySorted day_year_lt
      (detect HIGH_USAGE_THRESHOLD LOW_TEMP_THRESHOLD devA devB).
Proof.
  intros devA devB.
  assert (sorted_frame devA) as HA
    by apply sorted_frame_deviation, sorted_frame_pivot_table.
  assert (sorted_frame devB) as HB
    by apply sorted_frame_deviation, sorted_frame_pivot_table.
  split; [done|].
  exact (proj1 (anomaly_rows_ordered_by_day_then_year
                  HIGH_USAGE_THRESHOLD LOW_TEMP_THRESHOLD devA devB HA HB)).
Defined.

(** The rows the script prints are those of [detect] on its two deviation
    frames, hence ordered as above. *)
Lemma report_high_usage_warm_days high low elec_df gas_df temp_df :
  let rep := report high low elec_df gas_df temp_df in
  r_high_usage_warm_days rep
  = detect high low (r_dev_gas_daily rep) (r_temp_dev_daily rep)
  ∧ sorted_frame (r_dev_gas_daily rep) ∧ sorted_frame (r_temp_dev_daily rep).
Proof.
  simpl. split; [done|].
  split; apply sorted_frame_deviation, sorted_frame_pivot_table.
Qed.

(** C10: the filter applied tests "temperature deviation strictly greater
    than 0"; [LOW_TEMP_THRESHOLD] is never read, so the flagged rows, and
    the whole run, are the same for every value of that constant. *)
Theorem low_temp_threshold_is_never_read
    (high low low' : Qc) (today : date)
    (elec_df gas_df : list UsageRow) (temp_df : list TempRow)
    (devA devB : Frame) (merged : list DevRow) (r : DevRow) :
  (r ∈ select_high_usage_warm_days high low merged ↔
     r ∈ merged ∧ high < Gas_Dev r ∧ 0 < Temp_Dev r)
  ∧ select_high_usage_warm_days high low merged
    = select_high_usage_warm_days high low' merged
  ∧ detect high low devA devB = detect high low' devA devB
  ∧ analysis high low today elec_df gas_df temp_df
    = analysis high low' today elec_df gas_df temp_df
  ∧ main today elec_df gas_df temp_df
    = analysis HIGH_USAGE_THRESHOLD low today elec_df gas_df temp_df.
Proof.
  split; [|done]. unfold select_high_usage_warm_days.
  rewrite list_elem_of_filter. tauto.
Qed.

(** ** Order independence *)

Lemma group_perm col key (rows rows' : list MergedRow) :
  rows ≡ₚ rows' → group col key rows ≡ₚ group col key rows'.
Proof. unfold group. by intros ->. Qed.

(** With one row per key at most, the rows of a key are the same list in
    every order of the rows. *)
Lemma filter_key_perm {A K : Type} `{EqDecision K} (f : A → K) (l k : list A) (a : K) :
  NoDup (f <$> l) → l ≡ₚ k →
  filter (λ x, f x = a) l = filter (λ x, f x = a) k.
Proof.
  intros Hnd Hp.
  assert (filter (λ x, f x = a) l ≡ₚ filter (λ x, f x = a) k) as Hf by by rewrite Hp.
  rewrite (filter_key_NoDup f l a Hnd) in Hf |- *.
  destruct (list_find _ l) as [[? x]|].
  - by apply Permutation_singleton_l in Hf.
  - by apply Permutation_nil_l in Hf.
Qed.

(** The keys of the aggregated table do not depend on the row order. *)
Lemma groupby_keys_perm col agg (rows rows' : list MergedRow) :
  rows ≡ₚ rows' →
  (λ r, (d_Year r, d_DayOfYear r)) <$> groupby col agg rows
  = (λ r, (d_Year r, d_DayOfYear r)) <$> groupby col agg rows'.
Proof.
  intros Hp. unfold groupby, sorted_unique_keys. rewrite <-!list_fmap_compose.
  by rewrite (sort_distinct_perm key_le (group_key <$> rows) (group_key <$> rows'))
    by by rewrite Hp.
Qed.

(** With one record per (year, day_of_year) at most, the aggregated table
    does not depend on the row order, whatever the aggregation. *)
Lemma groupby_perm_one_record col agg (rows rows' : list MergedRow) :
  NoDup (group_key <$> rows) → rows ≡ₚ rows' →
  groupby col agg rows = groupby col agg rows'.
Proof.
  intros Hnd Hp. unfold groupby, sorted_unique_keys.
  rewrite (sort_distinct_perm key_le (group_key <$> rows) (group_key <$> rows'))
    by by rewrite Hp.
  apply list_fmap_ext. intros _ key _. f_equal. f_equal. unfold group.
  by rewrite (filter_key_perm group_key rows rows' key Hnd Hp).
Qed.

(** C8, as stated, fails on the binary64 readings of the script: the sum of
    a group is accumulated in row order, and three readings of one day in
    two orders give two different cells, with the compensated accumulation
    of [groupby(...).sum()] as with the plain one. *)
Lemma float64_group_sum_depends_on_row_order :
  let day := mkDate 2023 1 1 in
  let readings := [(day, 1.511); (day, 0.32); (day, 5.996)]%float in
  let readings' := [(day, 0.32); (day, 5.996); (day, 1.511)]%float in
  readings ≡ₚ readings'
  ∧ float64_group_sum readings 2023 1 = 7.827%float
  ∧ float64_group_sum readings' 2023 1 = 7.8270000000000008%float
  ∧ float64_group_sum readings 2023 1 ≠ float64_group_sum readings' 2023 1
  ∧ float64_sum readings.*2 ≠ float64_sum readings'.*2.
Proof.
  intros day readings readings'.
  split; [exact (Permutation_app_comm [(day, 1.511%float)] _)|].
  split; [by vm_compute|]. split; [by vm_compute|].
  split; intros Heq; apply (f_equal (PrimFloat.eqb 7.827%float)) in Heq;
    vm_compute in Heq; discriminate.
Qed.

(** C8 (amended): the aggregation of the same records in another order has
    the same (year, day_of_year) keys, in the same order, and each cell
    aggregates the same readings up to their order.  When every
    (year, day_of_year) has one record at most, the aggregated table, the
    day-of-year matrix, the baseline and the deviations are the same in
    every order of the records, whatever the aggregation of a group (the
    order-sensitive binary64 sum included).  Baseline and deviation are
    functions of the matrix alone. *)
Theorem aggregation_is_order_independent
    (col : MergedRow → option Qc) (agg : list (option Qc) → option Qc)
    (rows rows' : list MergedRow) :
  rows ≡ₚ rows' →
  let keys (t : list DailyRow) := (λ r, (d_Year r, d_DayOfYear r)) <$> t in
  let engine r :=
    let daily := groupby col agg r in
    let matrix := pivot daily in
    let baseline := row_mean (pivot_table daily) in
    (daily, matrix, baseline, deviation (pivot_table daily) baseline) in
  keys (groupby col agg rows) = keys (groupby col agg rows')
  ∧ (∀ key, group col key rows ≡ₚ group col key rows')
  ∧ (NoDup (group_key <$> rows) → engine rows = engine rows').
Proof.
  intros Hp keys engine. split; [by apply groupby_keys_perm|].
  split; [intros key; by apply group_perm|].
  intros Hnd. unfold engine.
  by rewrite (groupby_perm_one_record col agg rows rows' Hnd Hp).
Qed.

Lemma aggregation_is_order_independent_witness :
  let a := mkMerged (mkDate 2024 1 1) (qz 5) None None (qz 4) in
  let b := mkMerged (mkDate 2024 1 2) (qz 3) None None (qz 6) in
  let c := mkMerged (mkDate 2023 1 1) (qz 7) None None None in
  [a; b; c] ≡ₚ [c; b; a]
  ∧ NoDup (group_key <$> [a; b; c])
  ∧ groupby Usage nansum [a; b; c]
    = [mkDaily 2023 1 (qz 7); mkDaily 2024 1 (qz 5); mkDaily 2024 2 (qz 3)]
  ∧ groupby Usage nansum [a; b; c] = groupby Usage nansum [c; b; a].
Proof.
  intros a b c.
  assert ([a; b; c] ≡ₚ [c; b; a]) as Hp.
  { change [c; b; a] with (reverse [a; b; c]). by rewrite reverse_Permutation. }
  assert (NoDup (group_key <$> [a; b; c])) as Hnd by compute_done.
  split; [exact Hp|]. split; [exact Hnd|]. split; [compute_done|].
  exact (f_equal (λ p, p.1.1.1)
           (proj2 (proj2 (aggregation_is_order_independent
                            Usage nansum [a; b; c] [c; b; a] Hp)) Hnd)).
Defined.

(** ** Runs that abort *)

Lemma series_min_cons d l : is_Some (series_min (d :: l)).
Proof.
  change (series_min (d :: l))
    with (match series_min l with
          | None => Some d
          | Some m => Some (if date_ltb d m then d else m)
          end).
  destruct (series_min l); eauto.
Qed.

Lemma series_max_cons d l : is_Some (series_max (d :: l)).
Proof.
  change (series_max (d :: l))
    with (match series_max l with
          | None => Some d
          | Some m => Some (if date_ltb m d then d else m)
          end).
  destruct (series_max l); eauto.
Qed.

(** With no electricity record the start of the range is [NaT] and
    formatting it raises (line 91). *)
Lemma api_date_range_no_electricity today gas_df :
  api_date_range today [] gas_df
  = Raise (ValueError "NaTType does not support strftime").
Proof.
  unfold api_date_range. simpl.
  by destruct (series_min (u_Date <$> gas_df)).
Qed.

(** With an electricity record both ends of the range are dates. *)
Lemma api_date_range_electricity today e elec_df gas_df :
  ∃ range, api_date_range today (e :: elec_df) gas_df = Ok range.
Proof.
  unfold api_date_range. rewrite !fmap_cons.
  destruct (series_min_cons (u_Date e) (u_Date <$> elec_df)) as [lo ->].
  destruct (series_max_cons (u_Date e) (u_Date <$> elec_df)) as [hi ->].
  assert (∀ t, is_Some (py_min (Some lo) t)) as Hmin.
  { intros [t|]; unfold py_min; simpl; [destruct (date_ltb t lo)|]; eauto. }
  assert (∀ t, is_Some (py_max (Some hi) t)) as Hmax.
  { intros [t|]; unfold py_max; simpl; [destruct (date_ltb hi t)|]; eauto. }
  destruct (Hmin (series_min (u_Date <$> gas_df))) as [start ->].
  destruct (Hmax (series_max (u_Date <$> gas_df))) as [stop ->].
  unfold min_coverage. simpl.
  destruct (date_ltb today stop), (date_ltb start _); simpl; eauto.
Qed.

Lemma merge_left_no_temperature (left : list UsageRow) :
  merge_left left [] = unmatched <$> left.
Proof.
  unfold merge_left. induction left as [|l ls IH]; [done|].
  by rewrite bind_cons, fmap_cons, IH.
Qed.

Lemma valid_pairs_no_temperature (left : list UsageRow) :
  valid_pairs (unmatched <$> left) = [].
Proof.
  unfold valid_pairs. induction left as [|l ls IH]; [done|].
  rewrite fmap_cons. simpl. by destruct (u_Usage l).
Qed.

Lemma analysis_no_electricity high low today gas_df temp_df :
  analysis high low today [] gas_df temp_df
  = Raise (ValueError "NaTType does not support strftime").
Proof. unfold analysis. by rewrite api_date_range_no_electricity. Qed.

Lemma analysis_no_gas high low today e elec_df temp_df :
  analysis high low today (e :: elec_df) [] temp_df
  = Raise (AssertionError "Gas DataFrame is empty. Check file contents.").
Proof.
  unfold analysis.
  by destruct (api_date_range_electricity today e elec_df []) as [range ->].
Qed.

Lemma analysis_no_temperature high low today e elec_df g gas_df :
  analysis high low today (e :: elec_df) (g :: gas_df) []
  = Raise (AssertionError "Electricity correlation is NaN").
Proof.
  unfold analysis.
  destruct (api_date_range_electricity today e elec_df (g :: gas_df)) as [range ->].
  unfold corr_is_nan.
  by rewrite !merge_left_no_temperature, !valid_pairs_no_temperature.
Qed.

(** C9: a consumption series with zero records is fatal: whenever the
    electricity or the gas input is empty the run raises, at the date-range
    step or at the non-empty assertions, all of which come before any
    baseline is computed. *)
Theorem empty_consumption_aborts (high low : Qc) (today : date)
    (elec_df gas_df : list UsageRow) (temp_df : list TempRow) :
  elec_df = [] ∨ gas_df = [] →
  analysis high low today elec_df gas_df temp_df
  = Raise (abort_error elec_df gas_df)
  ∧ (abort_error elec_df gas_df = ValueError "NaTType does not support strftime"
     ∨ abort_error elec_df gas_df
       = AssertionError "Gas DataFrame is empty. Check file contents.").
Proof.
  intros [-> | ->].
  - rewrite analysis_no_electricity. split; [done | by left].
  - destruct elec_df as [|e elec_df].
    + rewrite analysis_no_electricity. split; [done | by left].
    + rewrite analysis_no_gas. split; [done | by right].
Qed.

Lemma empty_consumption_aborts_witness :
  (sample_elec = [] ∨ [] = @nil UsageRow)
  ∧ main sample_today sample_elec [] sample_temp
    = Raise (AssertionError "Gas DataFrame is empty. Check file contents.").
Proof.
  split; [by right|].
  exact (proj1 (empty_consumption_aborts HIGH_USAGE_THRESHOLD LOW_TEMP_THRESHOLD
                  sample_today sample_elec [] sample_temp (or_intror eq_refl))).
Defined.

(** ** An empty temperature frame *)







(** * Further properties of the script *)

(** ** Year and day of year identify the date *)

Lemma dayofyear_determines_month_day (y m1 d1 m2 d2 : Z) :
  valid_date (mkDate y m1 d1) → valid_date (mkDate y m2 d2) →
  dt_dayofyear (mkDate y m1 d1) = dt_dayofyear (mkDate y m2 d2) →
  m1 = m2 ∧ d1 = d2.
Proof.
  unfold valid_date, dt_dayofyear. simpl. intros [Hm1 Hd1] [Hm2 Hd2].
  rewrite !days_before_month_eq by done.
  revert Hd1 Hd2. unfold days_in_month.
  destruct (month_cases m1 Hm1) as
    [->|[->|[->|[->|[->|[->|[->|[->|[->|[->|[->| ->]]]]]]]]]]];
  destruct (month_cases m2 Hm2) as
    [->|[->|[->|[->|[->|[->|[->|[->|[->|[->|[->| ->]]]]]]]]]]];
  destruct (is_leap_year y); simpl; lia.
Qed.

(** X1: for valid dates, two aligned records fall in the same
    (Year, DayOfYear) group exactly when they have the same date, and the
    day of year lies between 1 and 366. *)
Theorem group_key_identifies_date (r1 r2 : MergedRow) :
  valid_date (Date r1) → valid_date (Date r2) →
  (group_key r1 = group_key r2 ↔ Date r1 = Date r2)
  ∧ (1 ≤ DayOfYear r1 ≤ 366)%Z.
Proof.
  intros Hv1 Hv2. split.
  - unfold group_key, Year, DayOfYear. split; [|by intros ->].
    destruct (Date r1) as [y1 m1 d1], (Date r2) as [y2 m2 d2]. simpl.
    intros [= -> Hdoy].
    destruct (dayofyear_determines_month_day y2 m1 d1 m2 d2) as [-> ->]; done.
  - pose proof (dayofyear_range (Date r1) Hv1) as Hr. unfold DayOfYear.
    destruct (is_leap_year _); lia.
Qed.

Lemma group_key_identifies_date_witness :
  let r1 := mkMerged (mkDate 2024 2 29) (qz 1) None None None in
  let r2 := mkMerged (mkDate 2024 3 1) (qz 2) None None None in
  (valid_date (Date r1) ∧ valid_date (Date r2))
  ∧ group_key r1 = (2024, 60)%Z ∧ group_key r2 = (2024, 61)%Z
  ∧ (group_key r1 = group_key r2 ↔ Date r1 = Date r2).
Proof.
  intros r1 r2.
  assert (valid_date (Date r1)) as H1 by compute_done.
  assert (valid_date (Date r2)) as H2 by compute_done.
  split; [done|]. split; [compute_done|]. split; [compute_done|].
  exact (proj1 (group_key_identifies_date r1 r2 H1 H2)).
Defined.

(** ** The requested date range *)

Lemma date_ltb_lt (a b : date) :
  date_ltb a b = true ↔
  (dt_year a < dt_year b
   ∨ (dt_year a = dt_year b
      ∧ (dt_month a < dt_month b
         ∨ (dt_month a = dt_month b ∧ dt_day a < dt_day b))))%Z.
Proof.
  unfold date_ltb.
  rewrite !orb_true_iff, !andb_true_iff, !orb_true_iff, !andb_true_iff.
  rewrite !Z.ltb_lt, !Z.eqb_eq. tauto.
Qed.

Lemma date_leb_le (a b : date) :
  date_leb a b = true ↔
  (dt_year a < dt_year b
   ∨ (dt_year a = dt_year b
      ∧ (dt_month a < dt_month b
         ∨ (dt_month a = dt_month b ∧ dt_day a ≤ dt_day b))))%Z.
Proof.
  unfold date_leb. rewrite negb_true_iff, <-not_true_iff_false, date_ltb_lt. lia.
Qed.

Lemma date_leb_refl (a : date) : date_leb a a = true.
Proof. apply date_leb_le. lia. Qed.

Lemma date_leb_trans (a b c : date) :
  date_leb a b = true → date_leb b c = true → date_leb a c = true.
Proof. rewrite !date_leb_le. lia. Qed.

Lemma date_leb_total (a b : date) : date_leb a b = true ∨ date_leb b a = true.
Proof. rewrite !date_leb_le. lia. Qed.

Lemma date_ltb_leb (a b : date) : date_ltb a b = true → date_leb a b = true.
Proof. rewrite date_ltb_lt, date_leb_le. lia. Qed.

Lemma date_ltb_false_leb (a b : date) : date_ltb a b = false ↔ date_leb b a = true.
Proof. unfold date_leb. by rewrite negb_true_iff. Qed.

(** [Series.min()] is a lower bound that occurs in the column. *)
Lemma series_min_spec (l : list date) (m : date) :
  series_min l = Some m → m ∈ l ∧ ∀ d, d ∈ l → date_leb m d = true.
Proof.
  revert m. induction l as [|x l IH]; intros m; [done|].
  change (series_min (x :: l))
    with (match series_min l with
          | None => Some x
          | Some m => Some (if date_ltb x m then x else m)
          end).
  destruct (series_min l) as [m'|] eqn:Hl.
  - destruct (IH m' eq_refl) as [Hin Hlow].
    destruct (date_ltb x m') eqn:Hx; intros [= <-].
    + split; [left|]. intros d [->|Hd]%elem_of_cons; [apply date_leb_refl|].
      eapply date_leb_trans; [by apply date_ltb_leb | by apply Hlow].
    + split; [by right|]. intros d [->|Hd]%elem_of_cons; [|by apply Hlow].
      by apply date_ltb_false_leb.
  - intros [= <-]. destruct l as [|z l].
    + split; [left|]. intros d [->|Hd]%elem_of_cons; [apply date_leb_refl|].
      by apply elem_of_nil in Hd.
    + by destruct (series_min_cons z l) as [? ?]; simplify_eq.
Qed.

(** [Series.max()] is an upper bound that occurs in the column. *)
Lemma series_max_spec (l : list date) (m : date) :
  series_max l = Some m → m ∈ l ∧ ∀ d, d ∈ l → date_leb d m = true.
Proof.
  revert m. induction l as [|x l IH]; intros m; [done|].
  change (series_max (x :: l))
    with (match series_max l with
          | None => Some x
          | Some m => Some (if date_ltb m x then x else m)
          end).
  destruct (series_max l) as [m'|] eqn:Hl.
  - destruct (IH m' eq_refl) as [Hin Hup].
    destruct (date_ltb m' x) eqn:Hx; intros [= <-].
    + split; [left|]. intros d [->|Hd]%elem_of_cons; [apply date_leb_refl|].
      eapply date_leb_trans; [by apply Hup | by apply date_ltb_leb].
    + split; [by right|]. intros d [->|Hd]%elem_of_cons; [|by apply Hup].
      by apply date_ltb_false_leb.
  - intros [= <-]. destruct l as [|z l].
    + split; [left|]. intros d [->|Hd]%elem_of_cons; [apply date_leb_refl|].
      by apply elem_of_nil in Hd.
    + by destruct (series_max_cons z l) as [? ?]; simplify_eq.
Qed.

Lemma series_min_None (l : list date) : series_min l = None → l = [].
Proof.
  destruct l as [|x l]; [done|].
  intros H. by destruct (series_min_cons x l) as [? ?]; simplify_eq.
Qed.

Lemma series_max_None (l : list date) : series_max l = None → l = [].
Proof.
  destruct l as [|x l]; [done|].
  intros H. by destruct (series_max_cons x l) as [? ?]; simplify_eq.
Qed.

(** Chain the date comparisons in sight. *)
Ltac date_order :=
  repeat match goal with
         | H : date_ltb _ _ = true |- _ => apply date_ltb_leb in H
         | H : date_ltb _ _ = false |- _ => apply date_ltb_false_leb in H
         end;
  eauto 4 using date_leb_trans, date_leb_refl.

(** X2: with at least one electricity record the requested range exists,
    starts no earlier than 1979-01-01, ends no later than today, and
    contains every consumption date (electricity or gas) that lies between
    1979-01-01 and today. *)
Theorem api_date_range_covers_consumption (today : date) (e : UsageRow)
    (elec_df gas_df : list UsageRow) :
  ∃ start stop,
    api_date_range today (e :: elec_df) gas_df = Ok (start, stop)
    ∧ date_leb (mkDate 1979 1 1) start = true
    ∧ date_leb stop today = true
    ∧ ∀ d, d ∈ u_Date <$> ((e :: elec_df) ++ gas_df) →
           date_leb (mkDate 1979 1 1) d = true → date_leb d today = true →
           date_leb start d = true ∧ date_leb d stop = true.
Proof.
  unfold api_date_range.
  destruct (series_min (u_Date <$> e :: elec_df)) as [lo|] eqn:Hlo;
    [|by apply series_min_None in Hlo].
  destruct (series_max (u_Date <$> e :: elec_df)) as [hi|] eqn:Hhi;
    [|by apply series_max_None in Hhi].
  apply series_min_spec in Hlo as [_ Hlo].
  apply series_max_spec in Hhi as [_ Hhi].
  assert (∀ d, d ∈ u_Date <$> gas_df →
               match series_min (u_Date <$> gas_df) with
               | Some lg => date_leb lg d = true
               | None => False
               end) as Hlg.
  { intros d Hd. destruct (series_min _) as [lg|] eqn:Hg.
    - apply series_min_spec in Hg as [_ Hg]. by apply Hg.
    - apply series_min_None in Hg. rewrite Hg in Hd. by apply elem_of_nil in Hd. }
  assert (∀ d, d ∈ u_Date <$> gas_df →
               match series_max (u_Date <$> gas_df) with
               | Some hg => date_leb d hg = true
               | None => False
               end) as Hhg.
  { intros d Hd. destruct (series_max _) as [hg|] eqn:Hg.
    - apply series_max_spec in Hg as [_ Hg]. by apply Hg.
    - apply series_max_None in Hg. rewrite Hg in Hd. by apply elem_of_nil in Hd. }
  unfold py_min, py_max, ts_ltb, min_coverage.
  destruct (series_min (u_Date <$> gas_df)) as [lg|],
           (series_max (u_Date <$> gas_df)) as [hg|];
    repeat match goal with
           | |- context [date_ltb ?a ?b] => destruct (date_ltb a b) eqn:?
           end;
    eexists _, _; (split; [reflexivity|]);
    (split; [date_order|]); (split; [date_order|]);
    intros d Hd H79 Htoday; rewrite fmap_app, elem_of_app in Hd;
    (destruct Hd as [Hd|Hd];
     [specialize (Hlo d Hd); specialize (Hhi d Hd)
     |specialize (Hlg d Hd); specialize (Hhg d Hd)]);
    try done; split; date_order.
Qed.

(** On the sample frames the range is 2023-01-01 to 2024-01-02. *)
Example api_date_range_sample :
  api_date_range sample_today sample_elec sample_gas
  = Ok (mkDate 2023 1 1, mkDate 2024 1 2).
Proof. reflexivity. Qed.

(** ** The temperature frame built from the API answer *)

Lemma frame_of_columns_columns (dates : list date) (mins maxs means : list (option Qc)) :
  length dates = length mins → length mins = length maxs →
  length maxs = length means →
  let temp_df := frame_of_columns dates mins maxs means in
  t_Date <$> temp_df = dates ∧ t_Min_Temp_C <$> temp_df = mins
  ∧ t_Max_Temp_C <$> temp_df = maxs ∧ t_Avg_Temp_C <$> temp_df = means.
Proof.
  revert mins maxs means.
  induction dates as [|d dates IH];
    intros [|mn mins] [|mx maxs] [|av means] H1 H2 H3; try done.
  injection H1 as H1. injection H2 as H2. injection H3 as H3.
  destruct (IH mins maxs means H1 H2 H3) as (Hd & Hmn & Hmx & Hav).
  cbv zeta.
  change (frame_of_columns (d :: dates) (mn :: mins) (mx :: maxs) (av :: means))
    with (mkTemp d mn mx av :: frame_of_columns dates mins maxs means).
  rewrite !fmap_cons. simpl. by rewrite Hd, Hmn, Hmx, Hav.
Qed.

(** X3: when the four arrays of the answer have the same length, the
    temperature frame has one row per API date, in the order of the answer,
    and its four columns are exactly the four arrays. *)
Theorem fetch_temp_df_keeps_columns
    (dates : list date) (mins maxs means : list (option Qc)) :
  length dates = length mins → length mins = length maxs →
  length maxs = length means →
  let temp_df :=
    fetch_temp_df (Json (Some (mkDailyJson (Some dates) (Some mins)
                                 (Some maxs) (Some means)))) in
  t_Date <$> temp_df = dates ∧ t_Min_Temp_C <$> temp_df = mins
  ∧ t_Max_Temp_C <$> temp_df = maxs ∧ t_Avg_Temp_C <$> temp_df = means
  ∧ length temp_df = length dates.
Proof.
  intros H1 H2 H3. simpl.
  rewrite !bool_decide_eq_true_2 by done. simpl.
  destruct (frame_of_columns_columns dates mins maxs means H1 H2 H3)
    as (Hd & Hmn & Hmx & Hav).
  repeat (split; [done|]). by rewrite <-Hd at 2; rewrite length_fmap.
Qed.

Lemma fetch_temp_df_keeps_columns_witness :
  let dates := [mkDate 2024 1 1; mkDate 2024 1 2] in
  let mins := [qz 1; None] in
  let maxs := [qz 9; qz 7] in
  let means := [qz 5; qz 4] in
  (length dates = length mins ∧ length mins = length maxs
   ∧ length maxs = length means)
  ∧ fetch_temp_df (Json (Some (mkDailyJson (Some dates) (Some mins)
                                 (Some maxs) (Some means))))
    = [mkTemp (mkDate 2024 1 1) (qz 1) (qz 9) (qz 5);
       mkTemp (mkDate 2024 1 2) None (qz 7) (qz 4)]
  ∧ t_Date <$> fetch_temp_df (Json (Some (mkDailyJson (Some dates) (Some mins)
                                            (Some maxs) (Some means))))
    = dates.
Proof.
  intros dates mins maxs means.
  split; [done|]. split; [compute_done|].
  exact (proj1 (fetch_temp_df_keeps_columns dates mins maxs means
                  eq_refl eq_refl eq_refl)).
Defined.

Lemma analysis_empty_temperature high low today elec_df gas_df :
  analysis high low today elec_df gas_df [] = Raise (abort_error elec_df gas_df).
Proof.
  destruct elec_df as [|e elec_df]; [by rewrite analysis_no_electricity|].
  destruct gas_df as [|g gas_df]; [by rewrite analysis_no_gas|].
  by rewrite analysis_no_temperature.
Qed.

(** X4: a failed request, an answer without the key [daily], or arrays of
    different lengths (a missing array counts as empty) leave an empty
    temperature frame: every fetched value is discarded, and the run then
    aborts. *)
Theorem failed_fetch_discards_and_aborts (today : date)
    (elec_df gas_df : list UsageRow) (response : Response) :
  response = RequestException ∨ response = Json None
  ∨ (∃ daily, response = Json (Some daily)
       ∧ ¬ (length (dict_get (j_time daily))
              = length (dict_get (j_temperature_2m_min daily))
            ∧ length (dict_get (j_temperature_2m_min daily))
              = length (dict_get (j_temperature_2m_max daily))
            ∧ length (dict_get (j_temperature_2m_max daily))
              = length (dict_get (j_temperature_2m_mean daily)))) →
  fetch_temp_df response = []
  ∧ script today elec_df gas_df response = Raise (abort_error elec_df gas_df).
Proof.
  intros Hresp.
  assert (fetch_temp_df response = []) as Hnil.
  { destruct Hresp as [-> | [-> | (daily & -> & Hlen)]]; [done..|].
    simpl. repeat case_bool_decide; simpl; try done. by destruct Hlen. }
  split; [done|]. unfold script, main. rewrite Hnil.
  apply analysis_empty_temperature.
Qed.

Lemma failed_fetch_discards_and_aborts_witness :
  let daily := mkDailyJson (Some [mkDate 2023 1 1; mkDate 2023 1 2])
                 (Some [qz 1; qz 2]) (Some [qz 3; qz 4]) (Some [qz 2]) in
  fetch_temp_df (Json (Some daily)) = []
  ∧ script sample_today sample_elec sample_gas (Json (Some daily))
    = Raise (AssertionError "Electricity correlation is NaN").
Proof.
  intros daily.
  refine (failed_fetch_discards_and_aborts sample_today sample_elec sample_gas
            (Json (Some daily)) _).
  right. right. exists daily. split; [done|]. simpl. lia.
Defined.

(** ** Alignment without assumption on the temperature dates *)

(** X5: whatever the temperature frame, the left merge drops no consumption
    record and invents none: every consumption record has an aligned record
    with its date and usage, every aligned record comes from a consumption
    record (unmatched, or joined with a temperature record of the same
    date), and the output is at least as long as the consumption frame. *)
Theorem merge_left_keeps_every_record
    (left : list UsageRow) (right : list TempRow) :
  (∀ c, c ∈ left →
        ∃ m, m ∈ merge_left left right ∧ Date m = u_Date c ∧ Usage m = u_Usage c)
  ∧ (∀ m, m ∈ merge_left left right →
          ∃ c, c ∈ left ∧ Date m = u_Date c ∧ Usage m = u_Usage c
               ∧ (m = unmatched c
                  ∨ ∃ t, t ∈ right ∧ t_Date t = u_Date c ∧ m = joined c t))
  ∧ (length left ≤ length (merge_left left right))%nat.
Proof.
  unfold merge_left. split; [|split].
  - intros c Hc. unfold matches.
    destruct (filter (λ t, t_Date t = u_Date c) right) as [|t ts] eqn:Hm.
    + exists (unmatched c). split; [|done].
      apply list_elem_of_bind. exists c. split; [|done].
      unfold matches. rewrite Hm. left.
    + exists (joined c t). split; [|done].
      apply list_elem_of_bind. exists c. split; [|done].
      unfold matches. rewrite Hm. left.
  - intros m (c & Hm & Hc)%list_elem_of_bind. exists c. split; [done|].
    unfold matches in Hm.
    destruct (filter (λ t, t_Date t = u_Date c) right) as [|t ts] eqn:Hf.
    + apply list_elem_of_singleton in Hm as ->. repeat split; by left.
    + apply list_elem_of_fmap in Hm as (t' & -> & Ht').
      rewrite <-Hf in Ht'. apply list_elem_of_filter in Ht' as [Hdate Ht'].
      repeat split; try done. right. by exists t'.
  - induction left as [|c cs IH]; [done|].
    rewrite bind_cons, length_app.
    destruct (matches right c) as [|t ts]; rewrite ?length_fmap;
      cbn [length] in *; lia.
Qed.

(** ** What the usage aggregation reads *)

Lemma group_fmap {A} (f : A → MergedRow) (col : MergedRow → option Qc)
    (key : Z * Z) (l : list A) :
  group col key (f <$> l) = (λ x, col (f x)) <$> filter (λ x, group_key (f x) = key) l.
Proof. unfold group. by rewrite filter_fmap_comm, <-list_fmap_compose. Qed.

(** The aggregation reads the key and the aggregated column, nothing else. *)
Lemma groupby_fmap_ext {A} (f g : A → MergedRow) (col : MergedRow → option Qc)
    (agg : list (option Qc) → option Qc) (l : list A) :
  (∀ x, group_key (f x) = group_key (g x) ∧ col (f x) = col (g x)) →
  groupby col agg (f <$> l) = groupby col agg (g <$> l).
Proof.
  intros Hfg. unfold groupby.
  assert (group_key <$> (f <$> l) = group_key <$> (g <$> l)) as ->.
  { rewrite <-!list_fmap_compose. apply list_fmap_ext.
    intros _ x _. apply Hfg. }
  apply list_fmap_ext. intros _ key _. f_equal. rewrite !group_fmap.
  rewrite (list_filter_iff (λ x, group_key (f x) = key) (λ x, group_key (g x) = key));
    last first.
  { intros x. by rewrite (proj1 (Hfg x)). }
  f_equal. apply list_fmap_ext. intros _ x _. apply Hfg.
Qed.

Lemma align_spec_fmap (consumption : list UsageRow) (temperature : list TempRow) :
  ∃ f, align_spec consumption temperature = f <$> consumption
       ∧ ∀ c, Date (f c) = u_Date c ∧ Usage (f c) = u_Usage c.
Proof.
  eexists. split; [reflexivity|].
  intros c. simpl. by destruct (list_find _ temperature) as [[? ?]|].
Qed.

(** X6: when the temperature dates are distinct, the aggregated usage does
    not depend on the temperature frame at all: it is the aggregation of
    the consumption records alone. *)
Theorem usage_aggregation_ignores_temperature
    (consumption : list UsageRow) (temperature : list TempRow) :
  NoDup (t_Date <$> temperature) →
  groupby Usage nansum (merge_left consumption temperature)
  = groupby Usage nansum (merge_left consumption []).
Proof.
  intros Hnd. rewrite merge_left_refines_spec by done.
  rewrite merge_left_no_temperature.
  destruct (align_spec_fmap consumption temperature) as (f & -> & Hf).
  apply groupby_fmap_ext. intros c. destruct (Hf c) as [Hd Hu].
  unfold group_key, Year, DayOfYear. by rewrite Hd, Hu.
Qed.

Lemma usage_aggregation_ignores_temperature_witness :
  NoDup (t_Date <$> sample_temp)
  ∧ groupby Usage nansum (merge_left sample_gas sample_temp)
    = groupby Usage nansum (merge_left sample_gas []).
Proof.
  assert (NoDup (t_Date <$> sample_temp)) as Hnd by compute_done.
  split; [exact Hnd|].
  exact (usage_aggregation_ignores_temperature sample_gas sample_temp Hnd).
Defined.

(** With two temperature records on one date the merge repeats the
    consumption record and the daily sum counts its usage twice. *)
Example duplicate_temperature_dates_double_usage :
  groupby Usage nansum
    (merge_left [mkUsage (mkDate 2024 1 1) (qz 10)]
       [mkTemp (mkDate 2024 1 1) None None (qz 5);
        mkTemp (mkDate 2024 1 1) None None (qz 6)])
  = [mkDaily 2024 1 (qz 20)].
Proof. compute_done. Qed.

Lemma filter_key_of_member {A K} `{EqDecision K} (f : A → K) (l : list A) (c : A) :
  NoDup (f <$> l) → c ∈ l → filter (λ x, f x = f c) l = [c].
Proof.
  induction l as [|x l IH]; intros Hnd Hc; [by apply elem_of_nil in Hc|].
  rewrite fmap_cons in Hnd. apply NoDup_cons in Hnd as [Hx Hnd].
  rewrite filter_cons. apply elem_of_cons in Hc as [->|Hc].
  - rewrite decide_True by done. f_equal. apply filter_none.
    intros z Hz Hfz. apply Hx. rewrite <-Hfz. by apply list_elem_of_fmap_2.
  - rewrite decide_False; [by apply IH|].
    intros Hxc. apply Hx. rewrite Hxc. by apply list_elem_of_fmap_2.
Qed.

Lemma filter_iff_elem_of {A} (P Q : A → Prop)
    `{!∀ x, Decision (P x), !∀ x, Decision (Q x)} (l : list A) :
  (∀ x, x ∈ l → P x ↔ Q x) → filter P l = filter Q l.
Proof.
  induction l as [|x l IH]; intros HPQ; [done|].
  rewrite !filter_cons, IH by (intros z Hz; apply HPQ; by right).
  destruct (decide (P x)) as [HP|HP].
  - rewrite decide_True; [done|]. apply HPQ; [left | done].
  - rewrite decide_False; [done|]. intros HQ. apply HP, HPQ; [left | done].
Qed.

Lemma Qsum_singleton (v : Qc) : Qsum [v] = v.
Proof. unfold Qsum. simpl. ring. Qed.

(** X7: with one record per date (valid, distinct consumption dates and
    distinct temperature dates), the matrix cell of a record's year and day
    of year is that record's usage, and 0 when its usage is missing. *)
Theorem one_record_per_day_cell_is_usage
    (consumption : list UsageRow) (temperature : list TempRow) (c : UsageRow) :
  NoDup (u_Date <$> consumption) →
  Forall (λ r, valid_date (u_Date r)) consumption →
  NoDup (t_Date <$> temperature) →
  c ∈ consumption →
  loc (pivot_table (groupby Usage nansum (merge_left consumption temperature)))
    (dt_dayofyear (u_Date c)) (dt_year (u_Date c))
  = Some (default 0 (u_Usage c)).
Proof.
  intros Hnd Hvalid Hndt Hc.
  rewrite merge_left_refines_spec by done.
  destruct (align_spec_fmap consumption temperature) as (f & -> & Hf).
  rewrite loc_pivot_groupby, decide_True; last first.
  { apply list_elem_of_fmap. exists (f c). split; [|by apply list_elem_of_fmap_2].
    unfold group_key, Year, DayOfYear. by rewrite (proj1 (Hf c)). }
  rewrite group_fmap.
  rewrite (filter_iff_elem_of _ (λ x, u_Date x = u_Date c)); last first.
  { intros x Hx. unfold group_key, Year, DayOfYear.
    rewrite (proj1 (Hf x)). split; [|by intros ->].
    assert (valid_date (u_Date x)) as Hvx
      by (by eapply Forall_forall in Hvalid; [|exact Hx]).
    assert (valid_date (u_Date c)) as Hvc
      by (by eapply Forall_forall in Hvalid; [|exact Hc]).
    destruct (u_Date x) as [y1 m1 d1], (u_Date c) as [y2 m2 d2].
    simpl. intros [= -> Hdoy].
    by destruct (dayofyear_determines_month_day y2 m1 d1 m2 d2) as [-> ->]. }
  rewrite (filter_key_of_member u_Date) by done.
  unfold nansum. simpl. rewrite (proj2 (Hf c)).
  destruct (u_Usage c) as [v|]; simpl; [f_equal; ring | done].
Qed.

Lemma one_record_per_day_cell_is_usage_witness :
  let c := mkUsage (mkDate 2023 1 2) (qz 10) in
  (NoDup (u_Date <$> sample_gas)
   ∧ Forall (λ r, valid_date (u_Date r)) sample_gas
   ∧ NoDup (t_Date <$> sample_temp) ∧ c ∈ sample_gas)
  ∧ loc (pivot_table (groupby Usage nansum (merge_left sample_gas sample_temp)))
      2 2023 = qz 10.
Proof.
  intros c.
  assert (NoDup (u_Date <$> sample_gas)) as H1 by compute_done.
  assert (Forall (λ r, valid_date (u_Date r)) sample_gas) as H2 by compute_done.
  assert (NoDup (t_Date <$> sample_temp)) as H3 by compute_done.
  assert (c ∈ sample_gas) as H4 by compute_done.
  split; [done|].
  exact (one_record_per_day_cell_is_usage sample_gas sample_temp c H1 H2 H3 H4).
Defined.

(** ** Usage cells and baselines are never absent *)

Lemma populated_years_elem_of t d y :
  y ∈ populated_years (pivot_table t) d ↔ is_Some (entry t d y).
Proof.
  unfold populated_years. rewrite list_elem_of_filter, loc_pivot_table. split.
  - by intros [? _].
  - intros [v Hv]. split; [by eexists|].
    destruct (entry_Some_labels t d y v Hv) as [Hd Hy].
    rewrite (frame_columns_pivot_table t d) by by apply elem_of_sorted_unique.
    by apply elem_of_sorted_unique.
Qed.

Lemma dropna_all_None (l : list (option Qc)) :
  (∀ o, o ∈ l → o = None) → dropna l = [].
Proof.
  induction l as [|o l IH]; intros Hl; [done|].
  rewrite dropna_cons, (Hl o) by left. apply IH. intros o' Ho'. apply Hl. by right.
Qed.

(** X8: the usage matrix has a value in the cell of every aligned record,
    and the usage baseline has a value on the day of every aligned record;
    a day whose usage readings are all missing gets the value 0, not an
    absent cell. *)
Theorem usage_cell_and_baseline_always_present (rows : list MergedRow) (r : MergedRow) :
  r ∈ rows →
  let matrix := pivot_table (groupby Usage nansum rows) in
  is_Some (loc matrix (DayOfYear r) (Year r))
  ∧ is_Some (series_at (row_mean matrix) (DayOfYear r))
  ∧ ((∀ r', r' ∈ rows → group_key r' = group_key r → Usage r' = None) →
     loc matrix (DayOfYear r) (Year r) = Some 0).
Proof.
  intros Hr matrix.
  assert (loc matrix (DayOfYear r) (Year r)
          = nansum (group Usage (Year r, DayOfYear r) rows)) as Hloc.
  { unfold matrix. rewrite loc_pivot_groupby, decide_True; [done|].
    apply list_elem_of_fmap. by exists r. }
  split; [|split].
  - rewrite Hloc. unfold nansum. by eexists.
  - unfold matrix. rewrite baseline_refines_spec.
    unfold baseline_spec. apply mean_of_is_Some.
    assert (Year r ∈ populated_years (pivot_table (groupby Usage nansum rows))
                       (DayOfYear r)) as Hin.
    { apply populated_years_elem_of. rewrite <-loc_pivot_table.
      fold matrix. rewrite Hloc. unfold nansum. by eexists. }
    destruct (populated_years _ _); [by apply elem_of_nil in Hin | done].
  - intros Hnone. rewrite Hloc. unfold nansum. f_equal.
    rewrite dropna_all_None; [done|].
    unfold group. intros o (r' & -> & [Hk Hr']%list_elem_of_filter)%list_elem_of_fmap.
    by apply Hnone.
Qed.

Lemma usage_cell_and_baseline_always_present_witness :
  let r := mkMerged (mkDate 2024 1 1) None None None (qz 5) in
  let rows := [r; mkMerged (mkDate 2023 1 1) (qz 4) None None (qz 3)] in
  r ∈ rows
  ∧ loc (pivot_table (groupby Usage nansum rows)) 1 2024 = qz 0
  ∧ is_Some (series_at (row_mean (pivot_table (groupby Usage nansum rows))) 1).
Proof.
  intros r rows.
  assert (r ∈ rows) as Hr by left.
  split; [exact Hr|]. split; [compute_done|].
  exact (proj1 (proj2 (usage_cell_and_baseline_always_present rows r Hr))).
Defined.

(** ** Pivot and stack *)

Lemma entry_NoDup t d y v :
  NoDup (pivot_key <$> t) →
  entry t d y = Some v ↔ mkDaily y d (Some v) ∈ t.
Proof.
  intros Hnd. unfold entry. split.
  - destruct (filter _ t) as [|r l] eqn:Hf; [done|]. intros Hv.
    assert (r ∈ filter (λ r, pivot_key r = (d, y)) t) as Hr by (rewrite Hf; left).
    apply list_elem_of_filter in Hr as [Hk Hr].
    destruct r as [y' d' o]. unfold pivot_key in Hk. simpl in *. by simplify_eq.
  - intros Hin.
    change (λ r, pivot_key r = (d, y))
      with (λ r, pivot_key r = pivot_key (mkDaily y d (Some v))).
    by rewrite (filter_key_of_member pivot_key).
Qed.

(** X9: stacking a pivot gives back the long table: for a table without
    duplicate (DayOfYear, Year) pairs, the stacked rows are exactly the
    rows of the table whose value is present; rows with a missing value
    are dropped. *)
Theorem stack_pivot_round_trip (t : list DailyRow) (d y : Z) (v : Qc) :
  NoDup (pivot_key <$> t) →
  mkStacked d y v ∈ stack (pivot_table t) ↔ mkDaily y d (Some v) ∈ t.
Proof.
  intros Hnd. rewrite elem_of_stack by apply sorted_frame_pivot_table.
  rewrite loc_pivot_table. by apply entry_NoDup.
Qed.

Lemma stack_pivot_round_trip_witness :
  let t := [mkDaily 2024 2 (qz 7); mkDaily 2023 1 None; mkDaily 2023 2 (qz 3)] in
  NoDup (pivot_key <$> t)
  ∧ stack (pivot_table t) = [mkStacked 2 2023 (Qc_of_Z 3); mkStacked 2 2024 (Qc_of_Z 7)]
  ∧ (mkStacked 2 2024 (Qc_of_Z 7) ∈ stack (pivot_table t)
     ↔ mkDaily 2024 2 (qz 7) ∈ t).
Proof.
  intros t.
  assert (NoDup (pivot_key <$> t)) as Hnd by compute_done.
  split; [exact Hnd|]. split; [compute_done|].
  exact (stack_pivot_round_trip t 2 2024 (Qc_of_Z 7) Hnd).
Defined.

(** ** Deviations around the baseline *)

Lemma Qsum_sub_const {A} (g : A → Qc) (c : Qc) (l : list A) :
  Qsum ((λ y, g y - c) <$> l)
  = Qsum (g <$> l) - Qc_of_Z (Z.of_nat (length l)) * c.
Proof.
  induction l as [|x l IH].
  - change (Qc_of_Z (Z.of_nat (length (@nil A)))) with (Qc_of_Z 0).
    rewrite Z2Qc_inj_0, !fmap_nil. unfold Qsum. cbn [foldr]. ring.
  - rewrite !fmap_cons. cbn [Qsum foldr length]. fold (Qsum ((λ y, g y - c) <$> l)).
    fold (Qsum (g <$> l)). rewrite IH, Nat2Z.inj_succ, <-Z.add_1_r.
    rewrite Z2Qc_inj_add, Z2Qc_inj_1. ring.
Qed.

Lemma Qc_of_length_nonzero {A} (x : A) (l : list A) :
  Qc_of_Z (Z.of_nat (length (x :: l))) ≠ 0.
Proof.
  rewrite <-Z2Qc_inj_0. intros H%Z2Qc_inj. simpl in H. lia.
Qed.

(** The deviation of a populated cell, with the baseline written out. *)
Lemma deviation_of_populated t d y :
  let m := pivot_table t in
  let ys := populated_years m d in
  y ∈ ys →
  loc (deviation m (row_mean m)) d y
  = Some (default 0 (loc m d y)
          - Qsum ((λ y, default 0 (loc m d y)) <$> ys)
            / Qc_of_Z (Z.of_nat (length ys))).
Proof.
  intros m ys Hy. rewrite loc_deviation.
  unfold m at 2. rewrite baseline_refines_spec. fold m.
  unfold baseline_spec, mean_of. fold ys.
  assert (is_Some (loc m d y)) as [v Hv].
  { apply populated_years_elem_of in Hy. unfold m. by rewrite loc_pivot_table. }
  rewrite Hv. destruct ys as [|y' ys']; [by apply elem_of_nil in Hy|].
  rewrite length_fmap, fmap_cons. done.
Qed.

(** X10: on every day, the deviations of the populated years sum to zero
    (in exact arithmetic). *)
Theorem deviations_of_a_day_sum_to_zero (t : list DailyRow) (d : Z) :
  let m := pivot_table t in
  let dev := deviation m (row_mean m) in
  Qsum ((λ y, default 0 (loc dev d y)) <$> populated_years m d) = 0.
Proof.
  intros m dev. subst dev m.
  set (ys := populated_years (pivot_table t) d).
  set (g := λ y, default 0 (loc (pivot_table t) d y)).
  set (c := Qsum (g <$> ys) / Qc_of_Z (Z.of_nat (length ys))).
  rewrite (list_fmap_ext _ (λ y, g y - c) ys); last first.
  { intros i y Hi. apply list_elem_of_lookup_2 in Hi.
    by rewrite (deviation_of_populated t d y Hi). }
  rewrite Qsum_sub_const. unfold c.
  destruct ys as [|y ys'] eqn:Hys.
  - change (Qc_of_Z (Z.of_nat (length (@nil Z)))) with (Qc_of_Z 0).
    rewrite Z2Qc_inj_0, !fmap_nil. unfold Qsum. cbn [foldr]. ring.
  - field. apply Qc_of_length_nonzero.
Qed.

Lemma lone_year_zero t d y :
  let m := pivot_table t in
  populated_years m d = [y] →
  loc (deviation m (row_mean m)) d y = Some 0.
Proof.
  intros m Hys. subst m.
  assert (y ∈ populated_years (pivot_table t) d) as Hy by (rewrite Hys; left).
  rewrite (deviation_of_populated t d y Hy), Hys.
  f_equal. cbn [fmap list_fmap length Qsum foldr].
  change (Z.of_nat 1) with 1%Z. rewrite Z2Qc_inj_1. field. done.
Qed.

(** X11: a day populated in a single year has deviation exactly 0 in that
    year (the baseline is the value itself), so no non-negative usage
    threshold ever flags it; day 366 with one leap year is the typical
    case. *)
Theorem lone_year_deviation_is_zero_and_never_flagged
    (t : list DailyRow) (d y : Z) :
  let m := pivot_table t in
  let dev := deviation m (row_mean m) in
  populated_years m d = [y] →
  loc dev d y = Some 0
  ∧ ∀ high low devB a b,
      0 ≤ high → sorted_frame devB → mkDev d y a b ∉ detect high low dev devB.
Proof.
  intros m dev Hys.
  assert (loc dev d y = Some 0) as H0 by by apply lone_year_zero.
  split; [done|].
  intros high low devB a b Hhigh HB Hin.
  apply elem_of_detect in Hin as (Ha & _ & Hlt & _);
    [|by apply sorted_frame_deviation, sorted_frame_pivot_table | done].
  rewrite H0 in Ha. injection Ha as <-.
  by apply Qclt_not_le in Hlt.
Qed.

Lemma lone_year_deviation_is_zero_and_never_flagged_witness :
  let t := [mkDaily 2020 365 (qz 4); mkDaily 2020 366 (qz 7);
            mkDaily 2021 365 (qz 5); mkDaily 2022 365 (qz 9)] in
  populated_years (pivot_table t) 366 = [2020%Z]
  ∧ loc (deviation (pivot_table t) (row_mean (pivot_table t))) 366 2020 = Some 0.
Proof.
  intros t.
  assert (populated_years (pivot_table t) 366 = [2020%Z]) as Hys by compute_done.
  split; [exact Hys|].
  exact (proj1 (lone_year_deviation_is_zero_and_never_flagged t 366 2020 Hys)).
Defined.

(** ** Data of a single year *)

Lemma merge_left_elem_of_date (left : list UsageRow) (right : list TempRow) m :
  m ∈ merge_left left right → ∃ c, c ∈ left ∧ Date m = u_Date c.
Proof.
  unfold merge_left. intros (c & Hm & Hc)%list_elem_of_bind. exists c. split; [done|].
  destruct (matches right c) as [|t ts].
  - by apply list_elem_of_singleton in Hm as ->.
  - by apply list_elem_of_fmap in Hm as (t' & -> & _).
Qed.

Lemma NoDup_populated_years t d : NoDup (populated_years (pivot_table t) d).
Proof.
  unfold populated_years. apply NoDup_filter.
  destruct (sorted_frame_pivot_table t) as [_ Hrows].
  destruct (pivot_table t) as [|r f]; simpl; [constructor|].
  apply Forall_cons in Hrows as [Hr _]. by apply StronglySorted_lt_NoDup.
Qed.

Lemma NoDup_all_eq {A} (l : list A) (a : A) :
  NoDup l → (∀ x, x ∈ l → x = a) → l = [] ∨ l = [a].
Proof.
  intros Hnd Hall. destruct l as [|x [|y l]]; [by left | |].
  - right. f_equal. apply Hall. left.
  - exfalso. apply NoDup_cons in Hnd as [Hx _]. apply Hx.
    rewrite (Hall x), (Hall y); [left | right; left | left].
Qed.

(** X12: when all gas records fall in one calendar year, no day is flagged,
    whatever the non-negative usage threshold: every gas deviation is 0. *)
Theorem single_year_of_gas_flags_nothing (high low : Qc)
    (elec_df gas_df : list UsageRow) (temp_df : list TempRow) (year : Z) :
  0 ≤ high →
  (∀ c, c ∈ gas_df → dt_year (u_Date c) = year) →
  r_high_usage_warm_days (report high low elec_df gas_df temp_df) = [].
Proof.
  intros Hhigh Hyear. apply elem_of_nil_inv. intros [d y a b] Hin.
  cbn [report r_high_usage_warm_days] in Hin.
  fold (detect high low
          (deviation (pivot_table (groupby Usage nansum (merge_left gas_df temp_df)))
             (row_mean (pivot_table (groupby Usage nansum (merge_left gas_df temp_df)))))
          (deviation
             (pivot_table (groupby Avg_Temp_C nanmean (merge_left elec_df temp_df)))
             (row_mean
                (pivot_table (groupby Avg_Temp_C nanmean (merge_left elec_df temp_df))))))
    in Hin.
  apply elem_of_detect in Hin as (Ha & _ & Hlt & _);
    [|by apply sorted_frame_deviation, sorted_frame_pivot_table..].
  set (t := groupby Usage nansum (merge_left gas_df temp_df)) in *.
  assert (y ∈ populated_years (pivot_table t) d) as Hy.
  { apply populated_years_elem_of. rewrite <-loc_pivot_table.
    rewrite loc_deviation in Ha. by destruct (loc (pivot_table t) d y). }
  assert (populated_years (pivot_table t) d = [y]) as Hys.
  { assert (∀ x, x ∈ populated_years (pivot_table t) d → x = year) as Hall.
    { intros x (m & Hm & <- & _)%populated_year_has_record.
      apply merge_left_elem_of_date in Hm as (c & Hc & Hdate).
      unfold Year. rewrite Hdate. by apply Hyear. }
    destruct (NoDup_all_eq _ year (NoDup_populated_years t d) Hall) as [Hn|Hn];
      rewrite Hn in Hy |- *.
    - by apply elem_of_nil in Hy.
    - by apply list_elem_of_singleton in Hy as ->. }
  rewrite (lone_year_zero t d y Hys) in Ha. injection Ha as <-.
  by apply Qclt_not_le in Hlt.
Qed.

Lemma single_year_of_gas_flags_nothing_witness :
  let gas := [mkUsage (mkDate 2024 1 1) (qz 0); mkUsage (mkDate 2024 1 2) (qz 50)] in
  (0 ≤ HIGH_USAGE_THRESHOLD ∧ ∀ c, c ∈ gas → dt_year (u_Date c) = 2024%Z)
  ∧ r_high_usage_warm_days
      (report HIGH_USAGE_THRESHOLD LOW_TEMP_THRESHOLD sample_elec gas sample_temp)
    = [].
Proof.
  intros gas.
  assert (0 ≤ HIGH_USAGE_THRESHOLD) as Hh by done.
  assert (∀ c, c ∈ gas → dt_year (u_Date c) = 2024%Z) as Hy.
  { intros c Hc. repeat (apply elem_of_cons in Hc as [->|Hc]; [done|]).
    by apply elem_of_nil in Hc. }
  split; [done|].
  exact (single_year_of_gas_flags_nothing HIGH_USAGE_THRESHOLD LOW_TEMP_THRESHOLD
           sample_elec gas sample_temp 2024 Hh Hy).
Defined.

(** ** The outcome of a run *)

Lemma analysis_cases high low today e elec_df g gas_df temp_df :
  analysis high low today (e :: elec_df) (g :: gas_df) temp_df
  = if corr_is_nan (merge_left (e :: elec_df) temp_df)
    then Raise (AssertionError "Electricity correlation is NaN")
    else if corr_is_nan (merge_left (g :: gas_df) temp_df)
         then Raise (AssertionError "Gas correlation is NaN")
         else Ok (report high low (e :: elec_df) (g :: gas_df) temp_df).
Proof.
  unfold analysis.
  destruct (api_date_range_electricity today e elec_df (g :: gas_df)) as [range ->].
  rewrite !pivot_groupby.
  by destruct (corr_is_nan (merge_left (e :: elec_df) temp_df)),
              (corr_is_nan (merge_left (g :: gas_df) temp_df)).
Qed.

(** X13: no run raises from [pivot].  The aggregated tables have one row
    per (year, day_of_year), so the three reshapes of the script find no
    duplicate (DayOfYear, Year) pair and succeed with the day-of-year
    matrices; a run that ends without exception has computed exactly
    these. *)
Theorem pivots_never_raise (high low : Qc) (today : date)
    (elec_df gas_df : list UsageRow) (temp_df : list TempRow) :
  let rep := report high low elec_df gas_df temp_df in
  NoDup (pivot_key <$> r_daily_elec rep)
  ∧ NoDup (pivot_key <$> r_daily_gas rep)
  ∧ NoDup (pivot_key <$> r_daily_temp rep)
  ∧ pivot (r_daily_elec rep) = Ok (r_daily_elec_pivot rep)
  ∧ pivot (r_daily_gas rep) = Ok (r_daily_gas_pivot rep)
  ∧ pivot (r_daily_temp rep) = Ok (r_daily_temp_pivot rep)
  ∧ (∀ rep', analysis high low today elec_df gas_df temp_df = Ok rep' →
       pivot (r_daily_elec rep') = Ok (r_daily_elec_pivot rep')
       ∧ pivot (r_daily_gas rep') = Ok (r_daily_gas_pivot rep')
       ∧ pivot (r_daily_temp rep') = Ok (r_daily_temp_pivot rep')).
Proof.
  intros rep.
  assert (pivot (r_daily_elec rep) = Ok (r_daily_elec_pivot rep)
          ∧ pivot (r_daily_gas rep) = Ok (r_daily_gas_pivot rep)
          ∧ pivot (r_daily_temp rep) = Ok (r_daily_temp_pivot rep)) as Hp.
  { unfold rep, report.
    cbn [r_daily_elec r_daily_gas r_daily_temp
         r_daily_elec_pivot r_daily_gas_pivot r_daily_temp_pivot].
    by rewrite !pivot_groupby. }
  split; [apply NoDup_groupby|]. split; [apply NoDup_groupby|].
  split; [apply NoDup_groupby|].
  destruct Hp as (He & Hg & Ht). split; [done|]. split; [done|]. split; [done|].
  intros rep' Hok. apply analysis_Ok_inv in Hok as ->. fold rep. done.
Qed.

Lemma pivots_never_raise_witness :
  let rep :=
    report HIGH_USAGE_THRESHOLD LOW_TEMP_THRESHOLD sample_elec sample_gas sample_temp in
  main sample_today sample_elec sample_gas sample_temp = Ok rep
  ∧ pivot (r_daily_gas rep) = Ok (r_daily_gas_pivot rep)
  ∧ r_daily_gas_pivot rep
    = [(1%Z, [(2023%Z, qz 0); (2024%Z, qz 10)]);
       (2%Z, [(2023%Z, qz 10); (2024%Z, qz 0)])].
Proof.
  intros rep.
  assert (main sample_today sample_elec sample_gas sample_temp = Ok rep) as Hok
    by compute_done.
  split; [exact Hok|]. split; [|compute_done].
  pose proof (pivots_never_raise HIGH_USAGE_THRESHOLD LOW_TEMP_THRESHOLD sample_today
                sample_elec sample_gas sample_temp) as (_ & _ & _ & _ & _ & _ & Hrun).
  exact (proj1 (proj2 (Hrun rep Hok))).
Defined.

Lemma corr_is_nan_few_pairs (rows : list MergedRow) :
  (length (valid_pairs rows) ≤ 1)%nat → corr_is_nan rows = true.
Proof.
  unfold corr_is_nan. destruct (valid_pairs rows) as [|p [|q ps]]; simpl; [done..|lia].
Qed.

(** X14: a run succeeds only if, in the electricity frame and in the gas
    frame, at least two aligned records have both a usage and a mean
    temperature; with fewer the correlation is NaN and the run aborts. *)
Theorem successful_run_has_two_paired_records (high low : Qc) (today : date)
    (elec_df gas_df : list UsageRow) (temp_df : list TempRow) (rep : Report) :
  analysis high low today elec_df gas_df temp_df = Ok rep →
  rep = report high low elec_df gas_df temp_df
  ∧ (2 ≤ length (valid_pairs (merge_left elec_df temp_df)))%nat
  ∧ (2 ≤ length (valid_pairs (merge_left gas_df temp_df)))%nat.
Proof.
  destruct elec_df as [|e elec_df]; [by rewrite analysis_no_electricity|].
  destruct gas_df as [|g gas_df]; [by rewrite analysis_no_gas|].
  rewrite analysis_cases.
  destruct (corr_is_nan (merge_left (e :: elec_df) temp_df)) eqn:He; [done|].
  destruct (corr_is_nan (merge_left (g :: gas_df) temp_df)) eqn:Hg; [done|].
  intros [= <-]. split; [done|]. split.
  - destruct (decide (length (valid_pairs (merge_left (e :: elec_df) temp_df)) ≤ 1)%nat)
      as [Hle|Hgt]; [|lia].
    apply corr_is_nan_few_pairs in Hle. congruence.
  - destruct (decide (length (valid_pairs (merge_left (g :: gas_df) temp_df)) ≤ 1)%nat)
      as [Hle|Hgt]; [|lia].
    apply corr_is_nan_few_pairs in Hle. congruence.
Qed.

Lemma successful_run_has_two_paired_records_witness :
  main sample_today sample_elec sample_gas sample_temp
  = Ok (report HIGH_USAGE_THRESHOLD LOW_TEMP_THRESHOLD
          sample_elec sample_gas sample_temp)
  ∧ (2 ≤ length (valid_pairs (merge_left sample_elec sample_temp)))%nat.
Proof.
  assert (main sample_today sample_elec sample_gas sample_temp
          = Ok (report HIGH_USAGE_THRESHOLD LOW_TEMP_THRESHOLD
                  sample_elec sample_gas sample_temp)) as Hok by compute_done.
  split; [exact Hok|].
  exact (proj1 (proj2 (successful_run_has_two_paired_records
                         HIGH_USAGE_THRESHOLD LOW_TEMP_THRESHOLD sample_today
                         sample_elec sample_gas sample_temp _ Hok))).
Defined.

(** A single day of data cannot be analysed. *)
Example one_day_of_data_aborts :
  main sample_today [mkUsage (mkDate 2024 1 1) (qz 3)]
    [mkUsage (mkDate 2024 1 1) (qz 7)] [mkTemp (mkDate 2024 1 1) None None (qz 5)]
  = Raise (AssertionError "Electricity correlation is NaN").
Proof. compute_done. Qed.

(** ** What a flagged day needs *)

Lemma mean_of_dropna_Some (l : list (option Qc)) (v : Qc) :
  mean_of (dropna l) = Some v → ∃ x, Some x ∈ l.
Proof.
  destruct (dropna l) as [|x xs] eqn:Hl; [done|]. intros _.
  assert (x ∈ dropna l) as Hx by (rewrite Hl; left).
  unfold dropna in Hx. apply list_elem_of_omap in Hx as (o & Ho & Hox).
  exists x. by rewrite <-Hox.
Qed.

(** X15: a flagged (year, day) has a gas record on that day and an
    electricity record on that day whose aligned mean temperature is
    present: the temperature deviations come from the electricity frame, so
    a day without electricity record is never flagged, however high its gas
    usage. *)
Theorem flagged_day_has_gas_and_electricity_records (high low : Qc)
    (elec_df gas_df : list UsageRow) (temp_df : list TempRow)
    (d y : Z) (a b : Qc) :
  mkDev d y a b ∈ r_high_usage_warm_days (report high low elec_df gas_df temp_df) →
  (∃ c, c ∈ gas_df ∧ dt_year (u_Date c) = y ∧ dt_dayofyear (u_Date c) = d)
  ∧ (∃ m, m ∈ merge_left elec_df temp_df ∧ Year m = y ∧ DayOfYear m = d
          ∧ is_Some (Avg_Temp_C m))
  ∧ high < a ∧ 0 < b.
Proof.
  intros Hin. cbn [report r_high_usage_warm_days] in Hin.
  fold (detect high low
          (deviation (pivot_table (groupby Usage nansum (merge_left gas_df temp_df)))
             (row_mean (pivot_table (groupby Usage nansum (merge_left gas_df temp_df)))))
          (deviation
             (pivot_table (groupby Avg_Temp_C nanmean (merge_left elec_df temp_df)))
             (row_mean
                (pivot_table (groupby Avg_Temp_C nanmean (merge_left elec_df temp_df))))))
    in Hin.
  apply elem_of_detect in Hin as (Ha & Hb & Hlt & Hpos);
    [|by apply sorted_frame_deviation, sorted_frame_pivot_table..].
  rewrite loc_deviation, loc_pivot_groupby in Ha, Hb.
  split; [|split; [|done]].
  - destruct (decide ((y, d) ∈ group_key <$> merge_left gas_df temp_df))
      as [Hk|Hk]; [|done].
    apply list_elem_of_fmap in Hk as (m & [= -> ->] & Hm).
    apply merge_left_elem_of_date in Hm as (c & Hc & Hdate).
    exists c. unfold Year, DayOfYear. by rewrite Hdate.
  - destruct (decide ((y, d) ∈ group_key <$> merge_left elec_df temp_df))
      as [Hk|Hk]; [|done].
    destruct (nanmean _) as [v|] eqn:Hmean; [|done].
    apply mean_of_dropna_Some in Hmean as (x & Hx).
    unfold group in Hx.
    apply list_elem_of_fmap in Hx as (m & Hm & [[= Hy Hd] Hin]%list_elem_of_filter).
    exists m. repeat split; try done.
Qed.

Lemma flagged_day_has_gas_and_electricity_records_witness :
  mkDev 1 2024 (Qc_of_Z 5) (Qc_of_Z 5)
    ∈ r_high_usage_warm_days
        (report HIGH_USAGE_THRESHOLD LOW_TEMP_THRESHOLD
           sample_elec sample_gas sample_temp)
  ∧ ∃ c, c ∈ sample_gas ∧ dt_year (u_Date c) = 2024%Z
         ∧ dt_dayofyear (u_Date c) = 1%Z.
Proof.
  assert (mkDev 1 2024 (Qc_of_Z 5) (Qc_of_Z 5)
            ∈ r_high_usage_warm_days
                (report HIGH_USAGE_THRESHOLD LOW_TEMP_THRESHOLD
                   sample_elec sample_gas sample_temp)) as Hin by compute_done.
  split; [exact Hin|].
  exact (proj1 (flagged_day_has_gas_and_electricity_records
                  HIGH_USAGE_THRESHOLD LOW_TEMP_THRESHOLD
                  sample_elec sample_gas sample_temp 1 2024 _ _ Hin)).
Defined.

(** A gas day without electricity record is not flagged. *)
Example gas_day_without_electricity_record :
  r_high_usage_warm_days
    (report HIGH_USAGE_THRESHOLD LOW_TEMP_THRESHOLD
       (filter (λ c, u_Date c ≠ mkDate 2024 1 1) sample_elec) sample_gas sample_temp)
  = [mkDev 2 2023 (Qc_of_Z 5) (Qc_of_Z 5)].
Proof. compute_done. Qed.

(** ** The order of the input rows *)

Lemma merge_left_perm (left left' : list UsageRow) (right right' : list TempRow) :
  left ≡ₚ left' → right ≡ₚ right' →
  merge_left left right ≡ₚ merge_left left' right'.
Proof.
  intros Hl Hr. unfold merge_left. rewrite <-Hl. clear Hl left'.
  induction left as [|c cs IH]; [done|].
  rewrite !bind_cons. apply Permutation_app; [|done].
  assert (matches right c ≡ₚ matches right' c) as Hm
    by (unfold matches; by rewrite Hr).
  destruct (matches right c) as [|t ts], (matches right' c) as [|t' ts'].
  - done.
  - by apply Permutation_nil_cons in Hm.
  - symmetry in Hm. by apply Permutation_nil_cons in Hm.
  - by rewrite Hm.
Qed.

(** ** Thresholds *)

(** X17: raising the usage threshold only removes flagged rows: the rows
    flagged at a higher threshold are the rows flagged at the lower one
    whose usage deviation exceeds the higher threshold, in the same order. *)
Theorem raising_threshold_filters_flagged_rows
    (high high' low low' : Qc) (devA devB : Frame) :
  high ≤ high' →
  detect high' low' devA devB
  = filter (λ r, high' < Gas_Dev r) (detect high low devA devB).
Proof.
  intros Hle. unfold detect, select_high_usage_warm_days.
  rewrite list_filter_filter. apply list_filter_iff. intros r. split.
  - intros [Hg Ht]. repeat split; try done. by eapply Qcle_lt_trans.
  - by intros (Hg & _ & Ht).
Qed.

Lemma raising_threshold_filters_flagged_rows_witness :
  let devA : Frame := [(1%Z, [(2023%Z, qz 3); (2024%Z, qz 9)])] in
  let devB : Frame := [(1%Z, [(2023%Z, qz 1); (2024%Z, qz 1)])] in
  HIGH_USAGE_THRESHOLD ≤ Qc_of_Z 5
  ∧ detect HIGH_USAGE_THRESHOLD LOW_TEMP_THRESHOLD devA devB
    = [mkDev 1 2023 (Qc_of_Z 3) (Qc_of_Z 1); mkDev 1 2024 (Qc_of_Z 9) (Qc_of_Z 1)]
  ∧ detect (Qc_of_Z 5) LOW_TEMP_THRESHOLD devA devB
    = filter (λ r, Qc_of_Z 5 < Gas_Dev r)
        (detect HIGH_USAGE_THRESHOLD LOW_TEMP_THRESHOLD devA devB).
Proof.
  intros devA devB.
  assert (HIGH_USAGE_THRESHOLD ≤ Qc_of_Z 5) as Hle by done.
  split; [exact Hle|]. split; [compute_done|].
  exact (raising_threshold_filters_flagged_rows HIGH_USAGE_THRESHOLD (Qc_of_Z 5)
           LOW_TEMP_THRESHOLD LOW_TEMP_THRESHOLD devA devB Hle).
Defined.

(** ** Shape of the aggregated table and of the matrices *)

Lemma groupby_keys col agg rows :
  (λ r, (d_Year r, d_DayOfYear r)) <$> groupby col agg rows
  = sorted_unique_keys (group_key <$> rows).
Proof.
  unfold groupby. rewrite <-list_fmap_compose.
  rewrite (list_fmap_ext _ id); [apply list_fmap_id|].
  by intros _ [y d] _.
Qed.

Lemma length_remove_dups {A} `{EqDecision A} (l : list A) :
  (length (remove_dups l) ≤ length l)%nat.
Proof.
  induction l as [|x l IH]; [done|]. simpl.
  destruct (decide_rel elem_of x l); simpl; lia.
Qed.

(** X18: the aggregated table has exactly one row per (Year, DayOfYear)
    pair of the input, in strictly ascending order of (Year, DayOfYear),
    and never more rows than the input. *)
Theorem groupby_one_sorted_row_per_key (col : MergedRow → option Qc)
    (agg : list (option Qc) → option Qc) (rows : list MergedRow) :
  let keys := (λ r, (d_Year r, d_DayOfYear r)) <$> groupby col agg rows in
  (∀ k, k ∈ keys ↔ k ∈ group_key <$> rows)
  ∧ NoDup keys
  ∧ StronglySorted (λ a b, key_le a b ∧ a ≠ b) keys
  ∧ (length (groupby col agg rows) ≤ length rows)%nat.
Proof.
  intros keys. unfold keys. rewrite groupby_keys.
  split; [intros k; apply elem_of_sorted_unique_keys|].
  split; [apply NoDup_sorted_unique_keys|]. split.
  - apply (Sorted_NoDup_strict key_le);
      [apply Sorted_sort_distinct, _ | apply NoDup_sorted_unique_keys].
  - unfold groupby. rewrite length_fmap.
    unfold sorted_unique_keys, sort_distinct.
    rewrite merge_sort_Permutation, <-(length_fmap group_key rows).
    apply length_remove_dups.
Qed.



(** ** Every consumption day gets a deviation *)

(** X20: the usage deviation frame is populated exactly where the usage
    matrix is, that is at the (year, day) of every aligned record: no usage
    deviation is lost to a missing baseline. *)
Theorem usage_deviation_populated_like_matrix (rows : list MergedRow) (d y : Z) :
  let matrix := pivot_table (groupby Usage nansum rows) in
  let dev := deviation matrix (row_mean matrix) in
  (is_Some (loc dev d y) ↔ is_Some (loc matrix d y))
  ∧ (is_Some (loc matrix d y) ↔ (y, d) ∈ group_key <$> rows).
Proof.
  intros matrix dev.
  assert (is_Some (loc matrix d y) ↔ (y, d) ∈ group_key <$> rows) as Hm.
  { unfold matrix. rewrite loc_pivot_groupby. case_decide; [|by split; [intros [? ?]|]].
    split; [done|]. intros _. unfold nansum. by eexists. }
  split; [|done]. unfold dev. rewrite loc_deviation. split.
  - destruct (loc matrix d y); [by eexists | by intros [? ?]].
  - intros Hs. destruct Hs as [v Hv]. rewrite Hv.
    assert (is_Some (series_at (row_mean matrix) d)) as [b Hb].
    { unfold matrix. rewrite baseline_refines_spec. unfold baseline_spec.
      apply mean_of_is_Some.
      assert (y ∈ populated_years (pivot_table (groupby Usage nansum rows)) d) as Hin.
      { apply populated_years_elem_of. rewrite <-loc_pivot_table.
        fold matrix. by rewrite Hv. }
      destruct (populated_years _ _); [by apply elem_of_nil in Hin | done]. }
    rewrite Hb. by eexists.
Qed.

(** With a temperature matrix the same is false: a day whose only
    temperature is missing has no baseline and no deviation. *)
Example temperature_deviation_can_be_absent :
  let rows := [mkMerged (mkDate 2024 1 1) (qz 5) None None None;
               mkMerged (mkDate 2024 1 2) (qz 6) None None (qz 3)] in
  let matrix := pivot_table (groupby Avg_Temp_C nanmean rows) in
  series_at (row_mean matrix) 1 = None
  ∧ loc (deviation matrix (row_mean matrix)) 1 2024 = None
  ∧ loc (deviation matrix (row_mean matrix)) 2 2024 = Some 0.
Proof. intros rows matrix. repeat split; compute_done. Qed.

(** ** The temperature matrix with one record per day *)

Lemma date_key_inj (a b : date) :
  valid_date a → valid_date b →
  (dt_year a, dt_dayofyear a) = (dt_year b, dt_dayofyear b) → a = b.
Proof.
  destruct a as [y1 m1 d1], b as [y2 m2 d2]. simpl.
  intros Ha Hb [= -> Hdoy].
  by destruct (dayofyear_determines_month_day y2 m1 d1 m2 d2) as [-> ->].
Qed.

Lemma mean_of_singleton (v : Qc) : mean_of [v] = Some v.
Proof.
  unfold mean_of. f_equal. cbn [length Qsum foldr].
  change (Z.of_nat 1) with 1%Z. rewrite Z2Qc_inj_1. field. done.
Qed.

(** X21: with one record per date (valid, distinct electricity dates and
    distinct temperature dates), the temperature matrix cell of an
    electricity record's year and day is the mean temperature fetched for
    that date, and is absent when no temperature row has that date. *)
Theorem one_record_per_day_cell_is_temperature
    (elec_df : list UsageRow) (temp_df : list TempRow) (c : UsageRow) :
  NoDup (u_Date <$> elec_df) →
  Forall (λ r, valid_date (u_Date r)) elec_df →
  NoDup (t_Date <$> temp_df) →
  c ∈ elec_df →
  loc (pivot_table (groupby Avg_Temp_C nanmean (merge_left elec_df temp_df)))
    (dt_dayofyear (u_Date c)) (dt_year (u_Date c))
  = match list_find (λ t, t_Date t = u_Date c) temp_df with
    | Some (_, t) => t_Avg_Temp_C t
    | None => None
    end.
Proof.
  intros Hnd Hvalid Hndt Hc.
  rewrite merge_left_refines_spec by done. unfold align_spec.
  set (f := λ c, match list_find (λ t, t_Date t = u_Date c) temp_df with
                 | Some (_, t) => joined c t
                 | None => unmatched c
                 end).
  assert (∀ x, Date (f x) = u_Date x) as Hf.
  { intros x. unfold f. by destruct (list_find _ temp_df) as [[? ?]|]. }
  rewrite loc_pivot_groupby, decide_True; last first.
  { apply list_elem_of_fmap. exists (f c). split; [|by apply list_elem_of_fmap_2].
    unfold group_key, Year, DayOfYear. by rewrite Hf. }
  rewrite group_fmap.
  rewrite (filter_iff_elem_of _ (λ x, u_Date x = u_Date c)); last first.
  { intros x Hx. unfold group_key, Year, DayOfYear. rewrite Hf.
    split; [|by intros ->]. apply date_key_inj.
    - by eapply Forall_forall in Hvalid; [|exact Hx].
    - by eapply Forall_forall in Hvalid; [|exact Hc]. }
  rewrite (filter_key_of_member u_Date) by done.
  unfold nanmean, f. cbn [fmap list_fmap].
  destruct (list_find _ temp_df) as [[i t]|]; cbn [joined unmatched Avg_Temp_C].
  - destruct (t_Avg_Temp_C t) as [v|]; [|done].
    rewrite dropna_cons. apply mean_of_singleton.
  - done.
Qed.

Lemma one_record_per_day_cell_is_temperature_witness :
  let c := mkUsage (mkDate 2023 1 2) (qz 2) in
  (NoDup (u_Date <$> sample_elec)
   ∧ Forall (λ r, valid_date (u_Date r)) sample_elec
   ∧ NoDup (t_Date <$> sample_temp) ∧ c ∈ sample_elec)
  ∧ loc (pivot_table (groupby Avg_Temp_C nanmean (merge_left sample_elec sample_temp)))
      2 2023 = qz 10.
Proof.
  intros c.
  assert (NoDup (u_Date <$> sample_elec)) as H1 by compute_done.
  assert (Forall (λ r, valid_date (u_Date r)) sample_elec) as H2 by compute_done.
  assert (NoDup (t_Date <$> sample_temp)) as H3 by compute_done.
  assert (c ∈ sample_elec) as H4 by compute_done.
  split; [done|].
  exact (one_record_per_day_cell_is_temperature sample_elec sample_temp c H1 H2 H3 H4).
Defined.

(** ** The order of the input rows, with one record per date *)

Lemma NoDup_group_key_merge_left (consumption : list UsageRow)
    (temperature : list TempRow) :
  NoDup (u_Date <$> consumption) →
  Forall (λ c, valid_date (u_Date c)) consumption →
  NoDup (t_Date <$> temperature) →
  NoDup (group_key <$> merge_left consumption temperature).
Proof.
  intros Hnd Hvalid Hndt. rewrite merge_left_refines_spec by done.
  unfold align_spec. rewrite <-list_fmap_compose.
  apply NoDup_fmap_2_strong; [|by apply NoDup_fmap_1 in Hnd].
  intros x y Hx Hy Hkey.
  apply (NoDup_fmap_eq u_Date consumption); [done..|].
  assert (∀ c, Date (match list_find (λ t, t_Date t = u_Date c) temperature with
                      | Some (_, t) => joined c t
                      | None => unmatched c
                      end) = u_Date c) as Hdate.
  { intros c. by destruct (list_find _ temperature) as [[? ?]|]. }
  unfold compose, group_key, Year, DayOfYear in Hkey. rewrite !Hdate in Hkey.
  apply date_key_inj; [| |done].
  - by eapply Forall_forall in Hvalid; [|exact Hx].
  - by eapply Forall_forall in Hvalid; [|exact Hy].
Qed.

(** X16: with one record per date in each of the three frames (valid
    dates), the order of the rows of the two consumption files and of the
    API answer is irrelevant: every group has a single record, so the
    aggregated tables, the matrices, the baselines, the deviations and the
    flagged rows are the same in every order of the rows. *)
Theorem row_order_is_irrelevant_with_one_record_per_date (high low : Qc)
    (elec_df elec_df' gas_df gas_df' : list UsageRow)
    (temp_df temp_df' : list TempRow) :
  elec_df ≡ₚ elec_df' → gas_df ≡ₚ gas_df' → temp_df ≡ₚ temp_df' →
  NoDup (u_Date <$> elec_df) → Forall (λ c, valid_date (u_Date c)) elec_df →
  NoDup (u_Date <$> gas_df) → Forall (λ c, valid_date (u_Date c)) gas_df →
  NoDup (t_Date <$> temp_df) →
  tables (report high low elec_df gas_df temp_df)
  = tables (report high low elec_df' gas_df' temp_df').
Proof.
  intros He Hg Ht Hnde Hve Hndg Hvg Hndt.
  pose proof (NoDup_group_key_merge_left elec_df temp_df Hnde Hve Hndt) as Hke.
  pose proof (NoDup_group_key_merge_left gas_df temp_df Hndg Hvg Hndt) as Hkg.
  pose proof (merge_left_perm elec_df elec_df' temp_df temp_df' He Ht) as Hpe.
  pose proof (merge_left_perm gas_df gas_df' temp_df temp_df' Hg Ht) as Hpg.
  unfold tables, report. cbn -[groupby pivot_table].
  rewrite (groupby_perm_one_record Usage nansum _ _ Hke Hpe).
  rewrite (groupby_perm_one_record Usage nansum _ _ Hkg Hpg).
  by rewrite (groupby_perm_one_record Avg_Temp_C nanmean _ _ Hke Hpe).
Qed.

Lemma row_order_is_irrelevant_with_one_record_per_date_witness :
  (sample_elec ≡ₚ reverse sample_elec ∧ sample_gas ≡ₚ reverse sample_gas
   ∧ sample_temp ≡ₚ reverse sample_temp
   ∧ NoDup (u_Date <$> sample_elec)
   ∧ Forall (λ c, valid_date (u_Date c)) sample_elec
   ∧ NoDup (u_Date <$> sample_gas)
   ∧ Forall (λ c, valid_date (u_Date c)) sample_gas
   ∧ NoDup (t_Date <$> sample_temp))
  ∧ tables (report HIGH_USAGE_THRESHOLD LOW_TEMP_THRESHOLD
              sample_elec sample_gas sample_temp)
    = tables (report HIGH_USAGE_THRESHOLD LOW_TEMP_THRESHOLD
                (reverse sample_elec) (reverse sample_gas) (reverse sample_temp)).
Proof.
  assert (sample_elec ≡ₚ reverse sample_elec) as He by by rewrite reverse_Permutation.
  assert (sample_gas ≡ₚ reverse sample_gas) as Hg by by rewrite reverse_Permutation.
  assert (sample_temp ≡ₚ reverse sample_temp) as Ht by by rewrite reverse_Permutation.
  assert (NoDup (u_Date <$> sample_elec)) as H1 by compute_done.
  assert (Forall (λ c, valid_date (u_Date c)) sample_elec) as H2 by compute_done.
  assert (NoDup (u_Date <$> sample_gas)) as H3 by compute_done.
  assert (Forall (λ c, valid_date (u_Date c)) sample_gas) as H4 by compute_done.
  assert (NoDup (t_Date <$> sample_temp)) as H5 by compute_done.
  split; [done|].
  exact (row_order_is_irrelevant_with_one_record_per_date
           HIGH_USAGE_THRESHOLD LOW_TEMP_THRESHOLD
           _ _ _ _ _ _ He Hg Ht H1 H2 H3 H4 H5).
Defined.
